(** * ShopCart: the cart and checkout sequence of [src/pages/Shop.tsx]
      over the schema of the Supabase migration.

    The development has three layers, as the repository has:
    - the tables, constraints and row-level-security policies of the
      migration, as statements over a record of row lists;
    - the PostgREST client calls ([select], [insert], [update],
      [maybeSingle]) that answer with a [data]/[error] pair;
    - the asynchronous handlers of the [Shop] component, written in a small
      state monad over the database, the component state and the toasts. *)

From Stdlib Require Import List String Ascii Bool NArith ZArith Lia.
From Stdlib Require Import Permutation Sorted.
From Stdlib Require Import SpecFloat DecimalString.
Import ListNotations.

Set Implicit Arguments.

(** ** Values *)

(** A [UUID] column.  The client holds it as a string which is never
    empty, so the test [!cartId] of the handlers is a test for [null]. *)
Definition uuid := N.

(** A JavaScript [number]: IEEE-754 binary64, round to nearest even. *)
Definition number := spec_float.

Module Number.
Definition prec : Z := 53.
Definition emax : Z := 1024.

Definition of_Z (z : Z) : number := binary_normalize prec emax z 0 false.
Definition add : number -> number -> number := SFadd prec emax.
Definition mul : number -> number -> number := SFmul prec emax.
Definition div : number -> number -> number := SFdiv prec emax.

  (** The literal [0] that starts the [reduce] of [checkout]. *)
Definition zero : number := S754_zero false.

  (** The number that [JSON.parse] yields for a [DECIMAL(10, 2)] value of
      [cents] hundredths: the binary64 nearest to [cents / 100].  Both
      operands are exact integers below [2^53] and the division is rounded
      correctly, so the quotient is that nearest number. *)
Definition of_decimal2 (cents : Z) : number := div (of_Z cents) (of_Z 100).
End Number.

(** ** A number on its way into a [DECIMAL(10, 2)] column

    [JSON.stringify] writes a number as the shortest decimal that reads
    back as the same binary64 ([Number::toString]); the column rounds that
    decimal to two places. *)

Module Json.
Local Open Scope Z_scope.

(** [x >= 10^j] for [x = m * 2^e]. *)
Definition at_least_pow10 (m : positive) (e j : Z) : bool :=
  10 ^ Z.max j 0 * 2 ^ Z.max (- e) 0
  <=? Zpos m * 2 ^ Z.max e 0 * 10 ^ Z.max (- j) 0.

(** The first [p] from [j] on with [x < 10^p]. *)
Fixpoint magnitude_from (fuel : nat) (m : positive) (e j : Z) : Z :=
  match fuel with
  | O => j
  | S fuel => if at_least_pow10 m e j then magnitude_from fuel m e (j + 1)
              else j
  end.

(** The [p] with [10^(p-1) <= x < 10^p].  [x] has [b = Zdigits2 m + e]
    binary digits, so [2^(b-1) <= x], and [(b - 1) * 0.30103 - 1] is below
    the decimal logarithm of [x] by less than four. *)
Definition magnitude (m : positive) (e : Z) : Z :=
  magnitude_from 4 m e ((Zdigits2 (Zpos m) + e - 1) * 30103 / 100000).

(** The binary64 nearest to [s * 10^t], for [s > 0]. *)
Definition of_decimal (s t : Z) : number :=
  if 0 <=? t then Number.of_Z (s * 10 ^ t)
  else Number.div (S754_finite false (Z.to_pos s) 0)
                  (S754_finite false (Z.to_pos (10 ^ (- t))) 0).

Definition is_number (m : positive) (e : Z) (x : number) : bool :=
  match x with
  | S754_finite false m' e' => Pos.eqb m m' && Z.eqb e e'
  | _ => false
  end.

(** The decimal [s * 10^(p-k)] of [k] digits that is nearest to
    [x = m * 2^e] among those whose nearest binary64 is [x], if there is
    one; of two equally near the even one. *)
Definition digits_of (m : positive) (e p k : Z) : option (Z * Z) :=
  let t := p - k in
  let num := Zpos m * 2 ^ Z.max e 0 * 10 ^ Z.max (- t) 0 in
  let den := 2 ^ Z.max (- e) 0 * 10 ^ Z.max t 0 in
  let lo := num / den in
  let r := num mod den in
  let below := is_number m e (of_decimal lo t) in
  let above := is_number m e (of_decimal (lo + 1) t) in
  let nearer_below :=
    match 2 * r ?= den with
    | Lt => true
    | Eq => Z.even lo
    | Gt => false
    end in
  if below && (nearer_below || negb above) then Some (lo, t)
  else if above then Some (lo + 1, t)
  else None.

Fixpoint shortest_from (fuel : nat) (m : positive) (e p k : Z)
  : option (Z * Z) :=
  match fuel with
  | O => None
  | S fuel => match digits_of m e p k with
              | Some d => Some d
              | None => shortest_from fuel m e p (k + 1)
              end
  end.

(** The digits [s] and the exponent [t] of the text of [x = m * 2^e]: the
    shortest decimal [s * 10^t] whose nearest binary64 is [x]. *)
Definition shortest (m : positive) (e : Z) : option (Z * Z) :=
  shortest_from 17 m e (magnitude m e) 1.
End Json.

Module Column.
Local Open Scope Z_scope.
(** [s * 10^t] in a [DECIMAL(_, 2)] column, in hundredths: rounded to two
    places, a half away from zero. *)
Definition round2 (s t : Z) : Z :=
  if -2 <=? t then s * 10 ^ (t + 2)
  else (2 * s + 10 ^ (- t - 2)) / (2 * 10 ^ (- t - 2)).

(** What the column holds, in hundredths, for a submitted number: the
    request carries the number as its text.  [NaN] and the infinities are
    sent as [null], which [NOT NULL] refuses. *)
Definition hundredths (x : number) : option Z :=
  match x with
  | S754_zero _ => Some 0
  | S754_finite sign m e =>
      match Json.shortest m e with
      | Some (s, t) => Some (if sign then - round2 s t else round2 s t)
      | None => None
      end
  | _ => None
  end.

(** The number read back from the column.  A value the column refuses is
    never in the table; it is left as it is. *)
Definition read_back (x : number) : number :=
  match hundredths x with
  | Some c => Number.of_decimal2 c
  | None => x
  end.
End Column.

(** ** Tables of the migration

    Rows are kept in insertion order.  For the tables the handlers write,
    one row per request, that is the order of [created_at], and the column
    is left out; [items], which the migration fills with one statement, has
    it. *)

(** [auth.users], as far as [handle_new_user] reads it.  [raw_user_meta_data]
    is a JSON object, held as its keys with the text [->>] gives for each
    value ([None] for a JSON [null]). *)
Definition jsonb := list (string * option string).

Record auth_user := {
  au_id : uuid;
  au_email : option string;
  au_raw_user_meta_data : option jsonb
}.

(** [public.profiles (id PRIMARY KEY REFERENCES auth.users,
                      username TEXT UNIQUE NOT NULL)] *)
Record profile := {
  profile_id : uuid;
  profile_username : string
}.

(** [public.items]; [price DECIMAL(10, 2)] is held in hundredths,
    [created_at] in microseconds. *)
Record item_row := {
  item_id : uuid;
  item_name : string;
  item_description : option string;
  item_price : Z;
  item_image_url : option string;
  item_status : string;
  item_created_at : Z
}.

(** [public.carts (..., UNIQUE(user_id, status))] *)
Record cart := {
  cart_id : uuid;
  cart_user_id : uuid;
  cart_status : string
}.

(** [public.cart_items (..., UNIQUE(cart_id, item_id))] *)
Record cart_item := {
  ci_id : uuid;
  ci_cart_id : uuid;
  ci_item_id : uuid;
  ci_quantity : Z
}.

(** [public.orders]; [order_total] is the number the client submitted
    (the column is [DECIMAL(10, 2)]: a read gives [Column.read_back] of
    it, and a value the column refuses is one of the rejections of
    [refused] below). *)
Record order := {
  order_id : uuid;
  order_user_id : uuid;
  order_cart_id : uuid;
  order_total : number;
  order_status : string
}.

Record db := {
  auth_users : list auth_user;
  profiles : list profile;
  items : list item_row;
  carts : list cart;
  cart_items : list cart_item;
  orders : list order
}.

Definition with_auth_users (l : list auth_user) (d : db) : db :=
  {| auth_users := l; profiles := profiles d; items := items d;
     carts := carts d; cart_items := cart_items d; orders := orders d |}.

Definition with_profiles (l : list profile) (d : db) : db :=
  {| auth_users := auth_users d; profiles := l; items := items d;
     carts := carts d; cart_items := cart_items d; orders := orders d |}.

Definition with_carts (l : list cart) (d : db) : db :=
  {| auth_users := auth_users d; profiles := profiles d; items := items d;
     carts := l; cart_items := cart_items d; orders := orders d |}.

Definition with_cart_items (l : list cart_item) (d : db) : db :=
  {| auth_users := auth_users d; profiles := profiles d; items := items d;
     carts := carts d; cart_items := l; orders := orders d |}.

Definition with_orders (l : list order) (d : db) : db :=
  {| auth_users := auth_users d; profiles := profiles d; items := items d;
     carts := carts d; cart_items := cart_items d; orders := l |}.

(** ** Constraints *)

(** A [UNIQUE] or [PRIMARY KEY] constraint holds of a table when no two of
    its rows agree on the key. *)
Fixpoint unique_by (A : Type) (same : A -> A -> bool) (l : list A) : bool :=
  match l with
  | [] => true
  | x :: t => negb (existsb (same x) t) && unique_by same t
  end.

(** [carts UNIQUE(user_id, status)] *)
Definition same_user_status (a b : cart) : bool :=
  N.eqb (cart_user_id a) (cart_user_id b)
  && String.eqb (cart_status a) (cart_status b).

(** [carts (id UUID PRIMARY KEY)] *)
Definition same_cart_id (a b : cart) : bool :=
  N.eqb (cart_id a) (cart_id b).

(** [cart_items UNIQUE(cart_id, item_id)] *)
Definition same_cart_item (a b : cart_item) : bool :=
  N.eqb (ci_cart_id a) (ci_cart_id b) && N.eqb (ci_item_id a) (ci_item_id b).

Definition user_exists (u : uuid) (d : db) : bool :=
  existsb (fun a => N.eqb (au_id a) u) (auth_users d).

Definition cart_exists (c : uuid) (d : db) : bool :=
  existsb (fun r => N.eqb (cart_id r) c) (carts d).

Definition item_exists (i : uuid) (d : db) : bool :=
  existsb (fun r => N.eqb (item_id r) i) (items d).

(** ** Row-level security

    [uid] is [auth.uid()], the identity of the caller. *)

(** carts: [USING / WITH CHECK (auth.uid() = user_id)] *)
Definition carts_policy (uid : uuid) (c : cart) : bool :=
  N.eqb uid (cart_user_id c).

(** cart_items: [EXISTS (SELECT 1 FROM carts WHERE carts.id =
    cart_items.cart_id AND carts.user_id = auth.uid())] *)
Definition cart_items_policy (uid : uuid) (d : db) (r : cart_item) : bool :=
  existsb (fun c => N.eqb (cart_id c) (ci_cart_id r)
                    && N.eqb (cart_user_id c) uid) (carts d).

(** orders: [USING / WITH CHECK (auth.uid() = user_id)] *)
Definition orders_policy (uid : uuid) (o : order) : bool :=
  N.eqb uid (order_user_id o).

(** items: [USING (status = 'active')] *)
Definition items_policy (i : item_row) : bool :=
  String.eqb (item_status i) "active".

(** ** Statements *)

(** [INSERT INTO carts]: the policy's check, the primary key, the foreign
    key to [auth.users] and [UNIQUE(user_id, status)]. *)
Definition insert_cart (uid : uuid) (new : cart) (d : db) : option db :=
  if carts_policy uid new
     && negb (cart_exists (cart_id new) d)
     && user_exists (cart_user_id new) d
     && negb (existsb (same_user_status new) (carts d))
  then Some (with_carts (carts d ++ [new]) d)
  else None.

(** [UPDATE carts SET status = s WHERE id = c], over the rows the policy
    lets the caller see; the statement is refused when the table it leaves
    breaks [UNIQUE(user_id, status)]. *)
Definition set_status (uid c : uuid) (s : string) (r : cart) : cart :=
  if N.eqb (cart_id r) c && carts_policy uid r
  then {| cart_id := cart_id r; cart_user_id := cart_user_id r;
          cart_status := s |}
  else r.

Definition update_cart_status (uid c : uuid) (s : string) (d : db)
  : option db :=
  let l := map (set_status uid c s) (carts d) in
  if unique_by same_user_status l then Some (with_carts l d) else None.

(** [INSERT INTO cart_items]: the policy's check, the primary key, both
    foreign keys and [UNIQUE(cart_id, item_id)]. *)
Definition insert_cart_item (uid : uuid) (new : cart_item) (d : db)
  : option db :=
  if cart_items_policy uid d new
     && negb (existsb (fun r => N.eqb (ci_id r) (ci_id new)) (cart_items d))
     && cart_exists (ci_cart_id new) d
     && item_exists (ci_item_id new) d
     && negb (existsb (same_cart_item new) (cart_items d))
  then Some (with_cart_items (cart_items d ++ [new]) d)
  else None.

(** [INSERT INTO orders]: the policy's check, the primary key and both
    foreign keys. *)
Definition insert_order (uid : uuid) (new : order) (d : db) : option db :=
  if orders_policy uid new
     && negb (existsb (fun o => N.eqb (order_id o) (order_id new)) (orders d))
     && user_exists (order_user_id new) d
     && cart_exists (order_cart_id new) d
  then Some (with_orders (orders d ++ [new]) d)
  else None.

(** ** The signup hook [handle_new_user] *)

(** [j ->> key]: SQL [NULL] when [j] is [NULL], when the key is absent and
    when its value is a JSON [null]. *)
Definition jsonb_get_text (j : option jsonb) (key : string) : option string :=
  match j with
  | None => None
  | Some o =>
      match find (fun kv => String.eqb (fst kv) key) o with
      | Some (_, v) => v
      | None => None
      end
  end.

(** [split_part(s, sep, 1)] for a one-character separator: the text before
    its first occurrence, all of [s] when there is none. *)
Fixpoint split_part_1 (sep : ascii) (s : string) : string :=
  match s with
  | EmptyString => EmptyString
  | String c t =>
      if Ascii.eqb c sep then EmptyString else String c (split_part_1 sep t)
  end.

(** [COALESCE(a, b)] *)
Definition coalesce (A : Type) (a b : option A) : option A :=
  match a with
  | Some x => Some x
  | None => b
  end.

(** [COALESCE(new.raw_user_meta_data->>'username',
              split_part(new.email, '@', 1))] *)
Definition new_username (new : auth_user) : option string :=
  coalesce (jsonb_get_text (au_raw_user_meta_data new) "username")
           (option_map (split_part_1 "@"%char) (au_email new)).

(** [INSERT INTO public.profiles (id, username)]: [NOT NULL], the primary
    key, the foreign key to [auth.users] and [UNIQUE(username)].  The
    function is [SECURITY DEFINER], so no policy applies. *)
Definition insert_profile (id : uuid) (username : option string) (d : db)
  : option db :=
  match username with
  | None => None
  | Some n =>
      if negb (existsb (fun p => N.eqb (profile_id p) id) (profiles d))
         && user_exists id d
         && negb (existsb (fun p => String.eqb (profile_username p) n)
                          (profiles d))
      then Some (with_profiles
                   (profiles d ++ [{| profile_id := id;
                                      profile_username := n |}]) d)
      else None
  end.

Definition handle_new_user (new : auth_user) (d : db) : option db :=
  insert_profile (au_id new) (new_username new) d.

(** [INSERT INTO auth.users] with its [AFTER INSERT] trigger
    [on_auth_user_created]: an error raised by the trigger undoes the
    insert. *)
Definition signup (new : auth_user) (d : db) : option db :=
  if user_exists (au_id new) d then None
  else handle_new_user new (with_auth_users (auth_users d ++ [new]) d).

(** ** The client *)

(** What a call answers: [{ data, error }]. *)
Record reply (A : Type) := {
  data : option A;
  error : bool
}.

Definition answer (A : Type) (a : A) : reply A :=
  {| data := Some a; error := false |}.
Definition failure (A : Type) : reply A :=
  {| data := None; error := true |}.

(** [.maybeSingle()]: no row is [null] without an error, more than one
    row is an error. *)
Definition maybeSingle (A : Type) (rows : list A) : reply A :=
  match rows with
  | [] => {| data := None; error := false |}
  | [r] => answer r
  | _ => failure A
  end.

(** The rows as the component types them. *)
Module Item.
Record t := {
    id : uuid;
    name : string;
    description : option string;
    price : number;
    image_url : option string;
    status : string
  }.
End Item.

(** [select("id, item_id, items (name)")]; the embedded [items] is [null]
    when the policy of [items] hides the row. *)
Module CartItem.
Record t := {
    id : uuid;
    item_id : uuid;
    items : option string
  }.
End CartItem.

Module Order.
Record t := {
    id : uuid;
    total : number
  }.
End Order.

(** [select("item_id, quantity, items (price)")], which [checkout] reads
    as [any]. *)
Module PricedItem.
Record t := {
    item_id : uuid;
    quantity : number;
    items : option number
  }.
End PricedItem.

Definition visible_item (i : uuid) (d : db) : option item_row :=
  find (fun r => N.eqb (item_id r) i && items_policy r) (items d).

(** [ORDER BY created_at DESC]: [r] goes before the first row that is not
    newer than it. *)
Fixpoint place (r : item_row) (l : list item_row) : list item_row :=
  match l with
  | [] => [r]
  | x :: t => if (item_created_at x <=? item_created_at r)%Z
              then r :: l else x :: place r t
  end.


(** The rows by falling [created_at]; rows that share it (the rows of one
    [INSERT] share one [NOW()]) stay in the order of the table. *)
Definition newest_first (l : list item_row) : list item_row :=
  fold_right place [] l.

(** [from("items").select("*").eq("status", "active")
      .order("created_at", { ascending: false })] *)
Definition select_items (d : db) : list Item.t :=
  map (fun r => {| Item.id := item_id r; Item.name := item_name r;
                   Item.description := item_description r;
                   Item.price := Number.of_decimal2 (item_price r);
                   Item.image_url := item_image_url r;
                   Item.status := item_status r |})
      (newest_first
         (filter (fun r => items_policy r
                           && String.eqb (item_status r) "active")
                 (items d))).

(** [from("carts").select("id").eq("user_id", u).eq("status", s)] *)
Definition select_cart_ids (uid u : uuid) (s : string) (d : db) : list uuid :=
  map cart_id
      (filter (fun c => carts_policy uid c && N.eqb (cart_user_id c) u
                        && String.eqb (cart_status c) s) (carts d)).

(** [from("cart_items")....eq("cart_id", c)], the rows the policy shows. *)
Definition rows_of_cart (uid c : uuid) (d : db) : list cart_item :=
  filter (fun r => cart_items_policy uid d r && N.eqb (ci_cart_id r) c)
         (cart_items d).

(** [from("cart_items").select("id").eq("cart_id", c).eq("item_id", i)] *)
Definition select_cart_item_ids (uid c i : uuid) (d : db) : list uuid :=
  map ci_id (filter (fun r => N.eqb (ci_item_id r) i) (rows_of_cart uid c d)).

Definition select_cart_names (uid c : uuid) (d : db) : list CartItem.t :=
  map (fun r => {| CartItem.id := ci_id r; CartItem.item_id := ci_item_id r;
                   CartItem.items :=
                     option_map item_name (visible_item (ci_item_id r) d) |})
      (rows_of_cart uid c d).

Definition select_cart_prices (uid c : uuid) (d : db)
  : list PricedItem.t :=
  map (fun r => {| PricedItem.item_id := ci_item_id r;
                   PricedItem.quantity := Number.of_Z (ci_quantity r);
                   PricedItem.items :=
                     option_map (fun i => Number.of_decimal2 (item_price i))
                                (visible_item (ci_item_id r) d) |})
      (rows_of_cart uid c d).

(** [from("orders").select("id, created_at, total").eq("user_id", u)
      .order("created_at", { ascending: false })] *)
Definition select_orders (uid u : uuid) (d : db) : list Order.t :=
  rev (map (fun o => {| Order.id := order_id o;
                        Order.total := Column.read_back (order_total o) |})
           (filter (fun o => orders_policy uid o && N.eqb (order_user_id o) u)
                   (orders d))).

(** ** The component

    [toast.error], [toast.info] and [toast.success].  The order history is
    a template over numbers; it is kept as its lines, each the order id
    (shown by its first eight characters) and the total. *)
Inductive toast :=
| toast_error (message : string)
| toast_info (message : string)
| toast_success (message : string)
| toast_order_history (lines : list (uuid * number)).

(** The state of [Shop]: [user] of [useAuth] and the four [useState]. *)
Record shop := {
  user : option uuid;
  items_state : list Item.t;
  cartId : option uuid;
  addingToCart : option uuid;
  checkingOut : bool
}.

Record world := {
  database : db;
  page : shop;
  toasts : list toast
}.

(** One awaited call: whether the service rejects it for a reason outside
    the constraints above (the transport, a denied token, a value a column
    refuses), in which case nothing is written, and the identifier
    [uuid_generate_v4()] draws if the call inserts a row. *)
Record conn := {
  refused : bool;
  uuid_v4 : uuid
}.

(** An [async] function: it runs on the world and either returns or
    throws ([None]); what it did before throwing stays done. *)
Definition async (A : Type) : Type := world -> option A * world.

Definition ret (A : Type) (a : A) : async A := fun w => (Some a, w).

Definition throw (A : Type) : async A := fun w => (None, w).

Definition bind (A B : Type) (m : async A) (k : A -> async B) : async B :=
  fun w =>
    match m w with
    | (Some a, w') => k a w'
    | (None, w') => (None, w')
    end.

Declare Scope async_scope.
Delimit Scope async_scope with async.
Notation "x <- m ;; k" := (bind m (fun x => k))
  (at level 61, m at next level, right associativity) : async_scope.
Notation "m ;; k" := (bind m (fun _ => k))
  (at level 61, right associativity) : async_scope.
Local Open Scope async_scope.

Definition with_page (p : shop) (w : world) : world :=
  {| database := database w; page := p; toasts := toasts w |}.

Definition setItems (l : list Item.t) : async unit :=
  fun w => (Some tt, with_page {| user := user (page w); items_state := l;
                                  cartId := cartId (page w);
                                  addingToCart := addingToCart (page w);
                                  checkingOut := checkingOut (page w) |} w).

Definition setCartId (c : option uuid) : async unit :=
  fun w => (Some tt, with_page {| user := user (page w);
                                  items_state := items_state (page w);
                                  cartId := c;
                                  addingToCart := addingToCart (page w);
                                  checkingOut := checkingOut (page w) |} w).

Definition setAddingToCart (i : option uuid) : async unit :=
  fun w => (Some tt, with_page {| user := user (page w);
                                  items_state := items_state (page w);
                                  cartId := cartId (page w);
                                  addingToCart := i;
                                  checkingOut := checkingOut (page w) |} w).

Definition setCheckingOut (b : bool) : async unit :=
  fun w => (Some tt, with_page {| user := user (page w);
                                  items_state := items_state (page w);
                                  cartId := cartId (page w);
                                  addingToCart := addingToCart (page w);
                                  checkingOut := b |} w).

Definition show (t : toast) : async unit :=
  fun w => (Some tt, {| database := database w; page := page w;
                        toasts := toasts w ++ [t] |}).

(** [await supabase.from(...)...]: a read. *)
Definition read (A : Type) (k : conn) (q : db -> reply A) : async (reply A) :=
  fun w => if refused k then (Some (failure A), w)
           else (Some (q (database w)), w).

(** [await supabase.from(...).insert/update(...)]: a write; when the
    statement goes through it answers with [row] (the inserted row, for
    [.select().single()]). *)
Definition write (A : Type) (k : conn) (stmt : db -> option db) (row : A)
  : async (reply A) :=
  fun w => if refused k then (Some (failure A), w)
           else match stmt (database w) with
                | Some d => (Some (answer row),
                             {| database := d; page := page w;
                                toasts := toasts w |})
                | None => (Some (failure A), w)
                end.

(** *** [loadItems] *)
Definition loadItems (k : conn) : async unit :=
  r <- read k (fun d => answer (select_items d)) ;;
  if error r then show (toast_error "Failed to load items")
  else setItems (match data r with Some l => l | None => [] end).

(** [{items.length === 0 && (... No items available ...)}] of the
    rendered page. *)
Definition no_items_available (p : shop) : bool :=
  match items_state p with
  | [] => true
  | _ :: _ => false
  end.

(** *** [loadOrCreateCart]

    Only [data] of the lookup is read: its [error] is not. *)
Definition loadOrCreateCart (k1 k2 : conn) : async unit :=
  fun w =>
    match user (page w) with
    | None => ret tt w
    | Some u =>
        (existingCart <-
           read k1 (fun d => maybeSingle (select_cart_ids u u "active" d)) ;;
         match data existingCart with
         | Some c => setCartId (Some c)
         | None =>
             let new := {| cart_id := uuid_v4 k2; cart_user_id := u;
                           cart_status := "active" |} in
             newCart <- write k2 (insert_cart u new) new ;;
             if error newCart then show (toast_error "Failed to create cart")
             else match data newCart with
                  | Some n => setCartId (Some (cart_id n))
                  | None => throw unit
                  end
         end) w
    end.

(** *** [addToCart] *)
Definition addToCart (itemId : uuid) (k1 k2 : conn) : async unit :=
  fun w =>
    match cartId (page w), user (page w) with
    | Some c, Some u =>
        (setAddingToCart (Some itemId) ;;
         existing <-
           read k1 (fun d => maybeSingle (select_cart_item_ids u c itemId d)) ;;
         match data existing with
         | Some _ =>
             show (toast_info "Item already in cart") ;;
             setAddingToCart None
         | None =>
             r <- write k2 (insert_cart_item u
                              {| ci_id := uuid_v4 k2; ci_cart_id := c;
                                 ci_item_id := itemId; ci_quantity := 1 |})
                        tt ;;
             (if error r then show (toast_error "Failed to add item to cart")
              else show (toast_success "Added to cart!")) ;;
             setAddingToCart None
         end) w
    | _, _ => ret tt w
    end.

(** *** [viewCart]

    The handler tests [cartId] only; without a session [auth.uid()] is
    [NULL] and the policy shows no row. *)

(** [cartItems.map((ci) => ci.items.name)], a [TypeError] when an embedded
    [items] is [null]. *)
Fixpoint item_names (l : list CartItem.t) : option (list string) :=
  match l with
  | [] => Some []
  | ci :: t =>
      match CartItem.items ci, item_names t with
      | Some n, Some ns => Some (n :: ns)
      | _, _ => None
      end
  end.

Definition viewCart (k : conn) : async unit :=
  fun w =>
    match cartId (page w) with
    | None => ret tt w
    | Some c =>
        (r <- read k (fun d =>
                 answer (match user (page w) with
                         | Some u => select_cart_names u c d
                         | None => []
                         end)) ;;
         if error r then show (toast_error "Failed to load cart")
         else match data r with
              | None => throw unit
              | Some [] => show (toast_info "Your cart is empty")
              | Some cartItems =>
                  match item_names cartItems with
                  | None => throw unit
                  | Some ns =>
                      show (toast_info
                              ("Cart Items: " ++ String.concat ", " ns))
                  end
              end) w
    end.

(** *** [viewOrderHistory] *)
Definition viewOrderHistory (k : conn) : async unit :=
  fun w =>
    match user (page w) with
    | None => ret tt w
    | Some u =>
        (r <- read k (fun d => answer (select_orders u u d)) ;;
         if error r then show (toast_error "Failed to load order history")
         else match data r with
              | None => throw unit
              | Some [] => show (toast_info "No orders yet")
              | Some os =>
                  show (toast_order_history
                          (map (fun o => (Order.id o, Order.total o)) os))
              end) w
    end.

(** *** [checkout] *)

(** [cartItems.reduce((sum, item) => sum + item.items.price * item.quantity,
    0)], a [TypeError] when an embedded [items] is [null]. *)
Fixpoint reduce_total (l : list PricedItem.t) (sum : number) : option number :=
  match l with
  | [] => Some sum
  | item :: t =>
      match PricedItem.items item with
      | Some p =>
          reduce_total t
            (Number.add sum (Number.mul p (PricedItem.quantity item)))
      | None => None
      end
  end.

Definition checkout (k1 k2 k3 k4 : conn) : async unit :=
  fun w =>
    match cartId (page w), user (page w) with
    | Some c, Some u =>
        (setCheckingOut true ;;
         r <- read k1 (fun d => answer (select_cart_prices u c d)) ;;
         match error r, data r with
         | false, Some (i :: l) =>
             match reduce_total (i :: l) Number.zero with
             | None => throw unit
             | Some total =>
                 o <- write k2 (insert_order u
                                  {| order_id := uuid_v4 k2;
                                     order_user_id := u;
                                     order_cart_id := c;
                                     order_total := total;
                                     order_status := "completed" |}) tt ;;
                 if error o then
                   show (toast_error "Failed to create order") ;;
                   setCheckingOut false
                 else
                   write k3 (update_cart_status u c "checked_out") tt ;;
                   (let new := {| cart_id := uuid_v4 k4; cart_user_id := u;
                                  cart_status := "active" |} in
                    newCart <- write k4 (insert_cart u new) new ;;
                    match data newCart with
                    | Some n => setCartId (Some (cart_id n))
                    | None => ret tt
                    end) ;;
                   show (toast_success "Order successful!") ;;
                   setCheckingOut false
             end
         | _, _ =>
             show (toast_error "Cart is empty") ;;
             setCheckingOut false
         end) w
    | _, _ => ret tt w
    end.

(** ** Running the page *)

Inductive action :=
| LoadItems (k : conn)
| LoadOrCreateCart (k1 k2 : conn)
| AddToCart (itemId : uuid) (k1 k2 : conn)
| ViewCart (k : conn)
| ViewOrderHistory (k : conn)
| Checkout (k1 k2 k3 k4 : conn).

Definition perform (a : action) : async unit :=
  match a with
  | LoadItems k => loadItems k
  | LoadOrCreateCart k1 k2 => loadOrCreateCart k1 k2
  | AddToCart i k1 k2 => addToCart i k1 k2
  | ViewCart k => viewCart k
  | ViewOrderHistory k => viewOrderHistory k
  | Checkout k1 k2 k3 k4 => checkout k1 k2 k3 k4
  end.

Definition after (a : action) (w : world) : world := snd (perform a w).

Definition returns (a : action) (w : world) : bool :=
  match fst (perform a w) with Some _ => true | None => false end.


(** ** What the properties speak of *)

(** The four statements the handlers issue. *)
Inductive statement :=
| InsertCart (uid : uuid) (new : cart)
| UpdateCartStatus (uid c : uuid) (s : string)
| InsertCartItem (uid : uuid) (new : cart_item)
| InsertOrder (uid : uuid) (new : order).

Definition exec (s : statement) : db -> option db :=
  match s with
  | InsertCart uid new => insert_cart uid new
  | UpdateCartStatus uid c st => update_cart_status uid c st
  | InsertCartItem uid new => insert_cart_item uid new
  | InsertOrder uid new => insert_order uid new
  end.

(** The databases the shop can be in: any start without carts and orders,
    then signups, the handlers of any session, and, since sessions
    interleave between two awaits, any single accepted statement. *)
Inductive reachable : db -> Prop :=
| reach_start d :
    carts d = [] -> cart_items d = [] -> orders d = [] -> reachable d
| reach_signup d new d' :
    reachable d -> signup new d = Some d' -> reachable d'
| reach_action d p ts a :
    reachable d ->
    reachable (database (after a {| database := d; page := p;
                                    toasts := ts |}))
| reach_statement d s d' :
    reachable d -> exec s d = Some d' -> reachable d'.

(** [writes d d']: [d'] is [d] after some accepted statements. *)
Inductive writes : db -> db -> Prop :=
| writes_none d : writes d d
| writes_more d d1 d2 s : writes d d1 -> exec s d1 = Some d2 -> writes d d2.

(** [frames m]: whatever [m] does to the database is done by accepted
    statements. *)
Definition frames (A : Type) (m : async A) : Prop :=
  forall w, writes (database w) (database (snd (m w))).

Definition carts_unique (d : db) : Prop :=
  unique_by same_user_status (carts d) = true.

Definition cart_items_unique (d : db) : Prop :=
  unique_by same_cart_item (cart_items d) = true.

(** The carts of user [u] in status [s]. *)
Definition carts_of (u : uuid) (s : string) (d : db) : list cart :=
  filter (fun c => N.eqb (cart_user_id c) u && String.eqb (cart_status c) s)
         (carts d).

(** The [cart_items] rows of the pair (cart [c], item [i]). *)
Definition rows_of_pair (c i : uuid) (d : db) : list cart_item :=
  filter (fun r => N.eqb (ci_cart_id r) c && N.eqb (ci_item_id r) i)
         (cart_items d).

(** The caller [u] owns cart [c]: what the policy of [cart_items] asks. *)
Definition owns_cart (u c : uuid) (d : db) : bool :=
  existsb (fun r => N.eqb (cart_id r) c && N.eqb (cart_user_id r) u) (carts d).

(** The total as the specification words it (checkout, step 2): the sum
    of price times quantity over the rows of the cart, in exact decimal
    arithmetic; here in hundredths. *)
Definition spec_total_cents (uid c : uuid) (d : db) : Z :=
  fold_left
    (fun sum r =>
       match visible_item (ci_item_id r) d with
       | Some i => (sum + item_price i * ci_quantity r)%Z
       | None => sum
       end)
    (rows_of_cart uid c d) 0%Z.

(** ** A session on the seeded shop *)

Module Example.

Local Open Scope N_scope.

Definition alice : uuid := 1.
Definition sneakers : uuid := 10.
Definition yoga_mat : uuid := 15.

Definition sample (i : uuid) (n dsc : string) (cents : Z) : item_row :=
  {| item_id := i; item_name := n; item_description := Some dsc;
     item_price := cents; item_image_url := None; item_status := "active";
     item_created_at := 0 |}.

(** The six rows the migration inserts into [items] (their pictures left
    out), and one user. *)
Definition shop_db : db :=
  {| auth_users := [{| au_id := alice;
                       au_email := Some "alice@example.com"%string;
                       au_raw_user_meta_data := None |}];
     profiles := [{| profile_id := alice; profile_username := "alice" |}];
     items := [sample sneakers "Classic Sneakers"
                      "Comfortable everyday sneakers" 7999;
               sample 11 "Wireless Headphones" "Premium sound quality" 12999;
               sample 12 "Smart Watch" "Track your fitness goals" 19999;
               sample 13 "Laptop Backpack" "Durable and stylish" 4999;
               sample 14 "Coffee Maker" "Brew the perfect cup" 8999;
               sample yoga_mat "Yoga Mat" "Non-slip premium quality" 3499];
     carts := []; cart_items := []; orders := [] |}.

Definition start : world :=
  {| database := shop_db;
     page := {| user := Some alice; items_state := []; cartId := None;
                addingToCart := None; checkingOut := false |};
     toasts := [] |}.

(** The same page over a shop without items. *)
Definition bare : world :=
  {| database := {| auth_users := auth_users shop_db;
                    profiles := profiles shop_db; items := [];
                    carts := []; cart_items := []; orders := [] |};
     page := page start; toasts := [] |}.

(** A call the service answers, drawing [i] if it inserts; a call it
    does not answer. *)
Definition ok (i : uuid) : conn := {| refused := false; uuid_v4 := i |}.
Definition down : conn := {| refused := true; uuid_v4 := 0 |}.

Definition run (l : list action) (w : world) : world :=
  fold_left (fun w a => after a w) l w.

Definition first_cart : uuid := 100.
Definition second_cart : uuid := 101.

(** The page is opened: the first cart is created, and is empty. *)
Definition opened : world :=
  run [LoadOrCreateCart (ok 0) (ok first_cart)] start.

(** Sneakers (79.99) and a yoga mat (34.99) are in the cart. *)
Definition filled : world :=
  run [AddToCart sneakers (ok 0) (ok 200);
       AddToCart yoga_mat (ok 0) (ok 201)] opened.

(** The rows the checkout of that cart fetches. *)
Definition filled_rows : list PricedItem.t :=
  select_cart_prices alice first_cart (database filled).

(** A checkout every call of which is answered, and one whose fetch is
    not. *)
Definition pay (order_no next_cart : uuid) : action :=
  Checkout (ok 0) (ok order_no) (ok 0) (ok next_cart).
Definition pay_unanswered (order_no next_cart : uuid) : action :=
  Checkout down (ok order_no) (ok 0) (ok next_cart).

(** The first checkout (order 300, new cart 101), then a yoga mat in the
    new cart. *)
Definition second_visit : world :=
  run [pay 300 second_cart; AddToCart yoga_mat (ok 0) (ok 202)] filled.

(** The second checkout (order 301), which draws 102 for the next cart. *)
Definition second_checkout : action := pay 301 102.

(** An identity with neither a username in its metadata nor an email
    (a phone signup). *)
Definition by_phone : auth_user :=
  {| au_id := 2; au_email := None; au_raw_user_meta_data := Some [] |}.

Definition with_username : auth_user :=
  {| au_id := 3; au_email := Some "carol@example.com"%string;
     au_raw_user_meta_data := Some [("username", Some "cat")]%string |}.

Definition by_email : auth_user :=
  {| au_id := 4; au_email := Some "bob@example.com"%string;
     au_raw_user_meta_data := Some [("full_name", Some "Bob")]%string |}.

End Example.

(** The order row [checkout] submits. *)
Definition order_of (k : conn) (u c : uuid) (total : number) : order :=
  {| order_id := uuid_v4 k; order_user_id := u; order_cart_id := c;
     order_total := total; order_status := "completed" |}.

(** The cart row [loadOrCreateCart] and [checkout] submit. *)
Definition cart_of (k : conn) (u : uuid) : cart :=
  {| cart_id := uuid_v4 k; cart_user_id := u; cart_status := "active" |}.

(** The row [addToCart] submits. *)
Definition cart_item_of (k : conn) (c i : uuid) : cart_item :=
  {| ci_id := uuid_v4 k; ci_cart_id := c; ci_item_id := i;
     ci_quantity := 1 |}.

#[global] Arguments reduce_total : simpl never.
#[global] Arguments select_cart_prices : simpl never.
#[global] Arguments select_cart_names : simpl never.
#[global] Arguments select_cart_item_ids : simpl never.
#[global] Arguments select_cart_ids : simpl never.
#[global] Arguments select_orders : simpl never.
#[global] Arguments select_items : simpl never.
#[global] Arguments insert_cart : simpl never.
#[global] Arguments insert_cart_item : simpl never.
#[global] Arguments insert_order : simpl never.
#[global] Arguments update_cart_status : simpl never.

(** ** Sessions, callers and the rendered page *)

(** The identity a statement is issued under. *)
Definition stmt_uid (s : statement) : uuid :=
  match s with
  | InsertCart uid _ => uid
  | UpdateCartStatus uid _ _ => uid
  | InsertCartItem uid _ => uid
  | InsertOrder uid _ => uid
  end.

(** [writes_as u d d']: [d'] is [d] after some accepted statements, all
    issued as user [u]. *)
Inductive writes_as (u : uuid) : db -> db -> Prop :=
| writes_as_none d : writes_as u d d
| writes_as_more d d1 d2 s :
    writes_as u d d1 -> stmt_uid s = u -> exec s d1 = Some d2 ->
    writes_as u d d2.

(** [frames_as u m]: run by the session of [u], [m] writes as [u] only,
    and leaves [u] signed in. *)
Definition frames_as (A : Type) (u : uuid) (m : async A) : Prop :=
  forall w, user (page w) = Some u ->
            writes_as u (database w) (database (snd (m w)))
            /\ user (page (snd (m w))) = Some u.

(** The foreign keys of [carts], [cart_items] and [orders]. *)
Definition refs_ok (d : db) : Prop :=
  (forall c, In c (carts d) -> user_exists (cart_user_id c) d = true)
  /\ (forall r, In r (cart_items d) ->
        cart_exists (ci_cart_id r) d = true
        /\ item_exists (ci_item_id r) d = true)
  /\ (forall o, In o (orders d) ->
        user_exists (order_user_id o) d = true
        /\ cart_exists (order_cart_id o) d = true).

(** Some actions in a row, on one page. *)
Definition perform_all (l : list action) (w : world) : world :=
  fold_left (fun w a => after a w) l w.

(** The effect [useEffect(() => { if (user) { loadItems();
    loadOrCreateCart(); } }, [user])]: the two loads are started without
    being awaited; here the listing is answered first. *)
Definition mount (k k1 k2 : conn) (w : world) : world :=
  match user (page w) with
  | Some _ => after (LoadOrCreateCart k1 k2) (after (LoadItems k) w)
  | None => w
  end.

(** The carts of the users other than [u]. *)
Definition others (u : uuid) (l : list cart) : list cart :=
  filter (fun c => negb (N.eqb (cart_user_id c) u)) l.


(** [profiles]: the primary key, [UNIQUE(username)] and the foreign key
    to [auth.users]. *)
Definition profiles_ok (d : db) : Prop :=
  unique_by (fun a b => N.eqb (profile_id a) (profile_id b)) (profiles d)
  = true
  /\ unique_by (fun a b => String.eqb (profile_username a)
                                      (profile_username b)) (profiles d)
     = true
  /\ forall p, In p (profiles d) -> user_exists (profile_id p) d = true.

(** ** A second user and a delisted item *)

Module Scene.

Local Open Scope N_scope.

Definition bob : uuid := 4.

Definition signed_in (u : uuid) (c : option uuid) : shop :=
  {| user := Some u; items_state := []; cartId := c; addingToCart := None;
     checkingOut := false |}.

(** Bob signs up while Alice's cart is filled, and opens the shop: his
    cart is 150. *)
Definition bob_opened : world :=
  after (LoadOrCreateCart (Example.ok 0) (Example.ok 150))
        {| database := match signup Example.by_email
                                    (database Example.filled) with
                       | Some d => d
                       | None => database Example.filled
                       end;
           page := signed_in bob None; toasts := [] |}.

(** Alice's page over that database. *)
Definition shared : world :=
  {| database := database bob_opened; page := page Example.filled;
     toasts := [] |}.

(** Bob's page, were its current cart Alice's. *)
Definition intruder : world :=
  {| database := database bob_opened;
     page := signed_in bob (Some Example.first_cart); toasts := [] |}.

(** The sneakers are taken off the listing while in Alice's cart. *)
Definition delist (i : uuid) (r : item_row) : item_row :=
  if N.eqb (item_id r) i
  then {| item_id := item_id r; item_name := item_name r;
          item_description := item_description r;
          item_price := item_price r; item_image_url := item_image_url r;
          item_status := "inactive";
          item_created_at := item_created_at r |}
  else r.

Definition delisted : world :=
  {| database :=
       {| auth_users := auth_users (database Example.filled);
          profiles := profiles (database Example.filled);
          items := map (delist Example.sneakers)
                       (items (database Example.filled));
          carts := carts (database Example.filled);
          cart_items := cart_items (database Example.filled);
          orders := orders (database Example.filled) |};
     page := page Example.filled; toasts := [] |}.

(** A later identity whose email has Bob's local part. *)
Definition other_bob : auth_user :=
  {| au_id := 6; au_email := Some "bob@elsewhere.org"%string;
     au_raw_user_meta_data := None |}.

End Scene.

(** ** The rendered page *)

(** ** [Number.prototype.toFixed(2)] *)

Module Fixed.
Local Open Scope Z_scope.





End Fixed.




(** The checkout button: [disabled={checkingOut}] and its label. *)
Definition checkout_button (p : shop) : bool * string :=
  (checkingOut p,
   if checkingOut p then "Processing..."%string else "Checkout"%string).

(** The button of the card of item [i]:
    [disabled={addingToCart === item.id}] and its label. *)
Definition add_button (p : shop) (i : uuid) : bool * string :=
  let adding := match addingToCart p with
                | Some j => N.eqb j i
                | None => false
                end in
  (adding, if adding then "Adding..."%string else "Add to Cart"%string).

(** ** Rounding to binary64 *)


(** * Properties *)

(** ** Keys and counting *)

Lemma existsb_false_filter (A : Type) (f : A -> bool) (l : list A) :
  existsb f l = false -> filter f l = [].
Proof.
  induction l as [|x t IH]; simpl; intro H; [reflexivity|].
  apply orb_false_iff in H as [Hx Ht]. rewrite Hx. auto.
Qed.

Lemma existsb_ext_false (A : Type) (f g : A -> bool) (l : list A) :
  (forall x, g x = true -> f x = true) ->
  existsb f l = false -> existsb g l = false.
Proof.
  intros Hfg. induction l as [|x t IH]; simpl; intro H; [reflexivity|].
  apply orb_false_iff in H as [Hx Ht]. rewrite (IH Ht), orb_false_r.
  destruct (g x) eqn:E; [|reflexivity]. apply Hfg in E. congruence.
Qed.

(** Under a key constraint the rows that share a key are at most one. *)
Lemma unique_by_at_most_one (A : Type) (same : A -> A -> bool)
      (p : A -> bool) (l : list A) :
  (forall x y, p x = true -> p y = true -> same x y = true) ->
  unique_by same l = true -> List.length (filter p l) <= 1.
Proof.
  intros Hp. induction l as [|x t IH]; simpl; intro H; [lia|].
  apply andb_true_iff in H as [Hx Ht]. apply negb_true_iff in Hx.
  destruct (p x) eqn:E; [|auto].
  rewrite (existsb_false_filter p t); [simpl; lia|].
  apply existsb_ext_false with (f := same x); auto.
Qed.

Lemma unique_by_snoc (A : Type) (same : A -> A -> bool) (l : list A) (x : A) :
  (forall a b, same a b = same b a) ->
  unique_by same l = true -> existsb (same x) l = false ->
  unique_by same (l ++ [x]) = true.
Proof.
  intros Hsym. induction l as [|a t IH]; simpl; intros Hu Hx; [reflexivity|].
  apply andb_true_iff in Hu as [Ha Ht]. apply negb_true_iff in Ha.
  apply orb_false_iff in Hx as [Hxa Hxt].
  rewrite existsb_app, Ha. simpl. rewrite Hsym, Hxa. simpl. auto.
Qed.

Lemma same_user_status_sym a b : same_user_status a b = same_user_status b a.
Proof.
  unfold same_user_status. now rewrite N.eqb_sym, String.eqb_sym.
Qed.

Lemma same_cart_item_sym a b : same_cart_item a b = same_cart_item b a.
Proof.
  unfold same_cart_item.
  now rewrite (N.eqb_sym (ci_cart_id a)), (N.eqb_sym (ci_item_id a)).
Qed.

Lemma carts_unique_at_most_one d u s :
  carts_unique d -> List.length (carts_of u s d) <= 1.
Proof.
  apply unique_by_at_most_one. intros x y Hx Hy.
  apply andb_true_iff in Hx as [Hx1 Hx2].
  apply andb_true_iff in Hy as [Hy1 Hy2].
  apply N.eqb_eq in Hx1, Hy1. apply String.eqb_eq in Hx2, Hy2.
  unfold same_user_status. rewrite Hx1, Hy1, Hx2, Hy2.
  now rewrite N.eqb_refl, String.eqb_refl.
Qed.

Lemma cart_items_unique_at_most_one d c i :
  cart_items_unique d -> List.length (rows_of_pair c i d) <= 1.
Proof.
  apply unique_by_at_most_one. intros x y Hx Hy.
  apply andb_true_iff in Hx as [Hx1 Hx2].
  apply andb_true_iff in Hy as [Hy1 Hy2].
  apply N.eqb_eq in Hx1, Hy1, Hx2, Hy2.
  unfold same_cart_item. rewrite Hx1, Hy1, Hx2, Hy2.
  now rewrite !N.eqb_refl.
Qed.

(** ** What one statement does *)

Lemma insert_cart_inv uid new d d' :
  insert_cart uid new d = Some d' ->
  d' = with_carts (carts d ++ [new]) d
  /\ carts_policy uid new = true
  /\ cart_exists (cart_id new) d = false
  /\ user_exists (cart_user_id new) d = true
  /\ existsb (same_user_status new) (carts d) = false.
Proof.
  unfold insert_cart. intro H.
  destruct (carts_policy uid new) eqn:E1; simpl in H; [|discriminate].
  destruct (cart_exists (cart_id new) d) eqn:E2; simpl in H; [discriminate|].
  destruct (user_exists (cart_user_id new) d) eqn:E3; simpl in H;
    [|discriminate].
  destruct (existsb (same_user_status new) (carts d)) eqn:E4; simpl in H;
    [discriminate|].
  injection H as <-. auto.
Qed.

Lemma update_cart_status_inv uid c s d d' :
  update_cart_status uid c s d = Some d' ->
  d' = with_carts (map (set_status uid c s) (carts d)) d /\ carts_unique d'.
Proof.
  unfold update_cart_status, carts_unique. intro H.
  destruct (unique_by same_user_status (map (set_status uid c s) (carts d)))
    eqn:E; [|discriminate].
  injection H as <-. auto.
Qed.

Lemma insert_cart_item_inv uid new d d' :
  insert_cart_item uid new d = Some d' ->
  d' = with_cart_items (cart_items d ++ [new]) d
  /\ existsb (same_cart_item new) (cart_items d) = false.
Proof.
  unfold insert_cart_item. intro H.
  destruct (existsb (same_cart_item new) (cart_items d)) eqn:E.
  - rewrite andb_false_r in H. discriminate.
  - destruct (_ && _) in H; [|discriminate]. injection H as <-. auto.
Qed.

Lemma insert_order_inv uid new d d' :
  insert_order uid new d = Some d' ->
  d' = with_orders (orders d ++ [new]) d.
Proof.
  unfold insert_order. intro H.
  destruct (_ && _) in H; [|discriminate]. now injection H as <-.
Qed.

Lemma exec_carts_unique s d d' :
  exec s d = Some d' -> carts_unique d -> carts_unique d'.
Proof.
  destruct s; simpl; intros H Hu.
  - apply insert_cart_inv in H as (-> & _ & _ & _ & Hn).
    unfold carts_unique; simpl.
    apply unique_by_snoc; auto using same_user_status_sym.
  - now apply update_cart_status_inv in H as [_ H].
  - apply insert_cart_item_inv in H as [-> _]. exact Hu.
  - apply insert_order_inv in H as ->. exact Hu.
Qed.

Lemma exec_cart_items_unique s d d' :
  exec s d = Some d' -> cart_items_unique d -> cart_items_unique d'.
Proof.
  destruct s; simpl; intros H Hu.
  - apply insert_cart_inv in H as (-> & _). exact Hu.
  - apply update_cart_status_inv in H as [-> _]. exact Hu.
  - apply insert_cart_item_inv in H as [-> Hn].
    unfold cart_items_unique; simpl.
    apply unique_by_snoc; auto using same_cart_item_sym.
  - apply insert_order_inv in H as ->. exact Hu.
Qed.

Lemma writes_carts_unique d d' :
  writes d d' -> carts_unique d -> carts_unique d'.
Proof. induction 1; eauto using exec_carts_unique. Qed.

Lemma writes_cart_items_unique d d' :
  writes d d' -> cart_items_unique d -> cart_items_unique d'.
Proof. induction 1; eauto using exec_cart_items_unique. Qed.

(** ** What a handler writes *)

Lemma writes_trans d1 d2 d3 : writes d1 d2 -> writes d2 d3 -> writes d1 d3.
Proof. intros H12 H23. induction H23; eauto using writes. Qed.

Lemma frames_ret (A : Type) (a : A) : frames (ret a).
Proof. intro w. apply writes_none. Qed.

Lemma frames_throw (A : Type) : frames (throw A).
Proof. intro w. apply writes_none. Qed.

Lemma frames_bind (A B : Type) (m : async A) (k : A -> async B) :
  frames m -> (forall a, frames (k a)) -> frames (bind m k).
Proof.
  intros Hm Hk w. unfold bind. specialize (Hm w).
  destruct (m w) as [[a|] w1]; simpl in *; [|exact Hm].
  eapply writes_trans; [exact Hm|apply Hk].
Qed.

Lemma frames_show t : frames (show t).
Proof. intro w. apply writes_none. Qed.

Lemma frames_setItems l : frames (setItems l).
Proof. intro w. apply writes_none. Qed.

Lemma frames_setCartId c : frames (setCartId c).
Proof. intro w. apply writes_none. Qed.

Lemma frames_setAddingToCart i : frames (setAddingToCart i).
Proof. intro w. apply writes_none. Qed.

Lemma frames_setCheckingOut b : frames (setCheckingOut b).
Proof. intro w. apply writes_none. Qed.

Lemma frames_read (A : Type) k (q : db -> reply A) : frames (read k q).
Proof. intro w. unfold read. destruct (refused k); apply writes_none. Qed.

Lemma frames_write (A : Type) k s (row : A) : frames (write k (exec s) row).
Proof.
  intro w. unfold write.
  destruct (refused k); [apply writes_none|].
  destruct (exec s (database w)) eqn:E; simpl; [|apply writes_none].
  eapply writes_more; [apply writes_none|exact E].
Qed.

Ltac framing :=
  repeat first
    [ apply frames_ret | apply frames_throw | apply frames_show
    | apply frames_setItems | apply frames_setCartId
    | apply frames_setAddingToCart | apply frames_setCheckingOut
    | apply frames_read
    | apply (frames_write _ (InsertCart _ _))
    | apply (frames_write _ (UpdateCartStatus _ _ _))
    | apply (frames_write _ (InsertCartItem _ _))
    | apply (frames_write _ (InsertOrder _ _))
    | apply frames_bind; [|intro]
    | match goal with
      | |- frames (match ?x with _ => _ end) => destruct x
      end ].

Lemma frames_perform a : frames (perform a).
Proof.
  destruct a; simpl; intro w.
  - revert w. unfold loadItems. framing.
  - unfold loadOrCreateCart.
    destruct (user (page w)); [|apply writes_none].
    revert w. cbv zeta. framing.
  - unfold addToCart.
    destruct (cartId (page w)); [|apply writes_none].
    destruct (user (page w)); [|apply writes_none].
    revert w. framing.
  - unfold viewCart.
    destruct (cartId (page w)); [|apply writes_none].
    generalize (user (page w)). intro o. revert w. framing.
  - unfold viewOrderHistory.
    destruct (user (page w)); [|apply writes_none].
    revert w. framing.
  - unfold checkout.
    destruct (cartId (page w)); [|apply writes_none].
    destruct (user (page w)); [|apply writes_none].
    revert w. cbv zeta. framing.
Qed.

Lemma after_writes a w : writes (database w) (database (after a w)).
Proof. apply frames_perform. Qed.

(** ** The key constraints hold of every reachable database *)

Lemma signup_tables new d d' :
  signup new d = Some d' ->
  carts d' = carts d /\ cart_items d' = cart_items d /\ orders d' = orders d.
Proof.
  unfold signup, handle_new_user, insert_profile. intro H.
  destruct (user_exists (au_id new) d); [discriminate|].
  destruct (new_username new); [|discriminate].
  destruct (_ && _) in H; [|discriminate].
  injection H as <-. auto.
Qed.

Lemma reachable_unique d :
  reachable d -> carts_unique d /\ cart_items_unique d.
Proof.
  induction 1 as [d Hc Hi _|d new d' _ IH Hs|d p ts a _ IH|d s d' _ IH Hs].
  - unfold carts_unique, cart_items_unique. now rewrite Hc, Hi.
  - apply signup_tables in Hs as (Hc & Hi & _).
    unfold carts_unique, cart_items_unique in *. now rewrite Hc, Hi.
  - destruct IH as [IHc IHi].
    pose proof (after_writes a {| database := d; page := p; toasts := ts |})
      as Hw.
    split; [eapply writes_carts_unique|eapply writes_cart_items_unique];
      eauto.
  - destruct IH as [IHc IHi].
    eauto using exec_carts_unique, exec_cart_items_unique.
Qed.

(** The primary key of [carts] holds as well. *)
Lemma same_cart_id_sym a b : same_cart_id a b = same_cart_id b a.
Proof. unfold same_cart_id. apply N.eqb_sym. Qed.

Lemma unique_by_map_same (A : Type) (same : A -> A -> bool) (f : A -> A)
      (l : list A) :
  (forall a b, same (f a) (f b) = same a b) ->
  unique_by same (map f l) = unique_by same l.
Proof.
  intro Hf.
  assert (He : forall a t,
             existsb (same (f a)) (map f t) = existsb (same a) t).
  { intros a t. induction t as [|b t' IHt]; simpl; [reflexivity|].
    now rewrite Hf, IHt. }
  induction l as [|a t IH]; simpl; [reflexivity|]. now rewrite IH, He.
Qed.

Lemma set_status_id u c s r : cart_id (set_status u c s r) = cart_id r.
Proof. unfold set_status. now destruct (_ && _). Qed.

Lemma exec_cart_ids s d d' :
  exec s d = Some d' ->
  unique_by same_cart_id (carts d) = true ->
  unique_by same_cart_id (carts d') = true.
Proof.
  destruct s; simpl; intros H Hu.
  - apply insert_cart_inv in H as (-> & _ & Hn & _). simpl.
    apply unique_by_snoc; auto using same_cart_id_sym.
    unfold cart_exists in Hn. rewrite <- Hn. clear.
    induction (carts d) as [|a t IH]; simpl; [reflexivity|].
    rewrite IH. unfold same_cart_id.
    now rewrite (N.eqb_sym (cart_id a)).
  - apply update_cart_status_inv in H as [-> _]. simpl.
    rewrite unique_by_map_same; [exact Hu|].
    intros a b. unfold same_cart_id. now rewrite !set_status_id.
  - apply insert_cart_item_inv in H as [-> _]. exact Hu.
  - apply insert_order_inv in H as ->. exact Hu.
Qed.

Lemma reachable_after d p ts a :
  reachable d ->
  reachable (database (after a {| database := d; page := p; toasts := ts |})).
Proof. apply reach_action. Qed.

Lemma reachable_cart_ids d :
  reachable d -> unique_by same_cart_id (carts d) = true.
Proof.
  induction 1 as [d Hc _ _|d new d' _ IH Hs|d p ts a _ IH|d s d' _ IH Hs].
  - now rewrite Hc.
  - apply signup_tables in Hs as (Hc & _). now rewrite Hc.
  - pose proof (after_writes a {| database := d; page := p; toasts := ts |})
      as Hw.
    simpl in Hw. induction Hw; eauto using exec_cart_ids.
  - eauto using exec_cart_ids.
Qed.

(** ** At most one cart per user and status *)

Lemma exec_at_most_one s st d d' :
  exec st d = Some d' ->
  (forall u, List.length (carts_of u s d) <= 1) ->
  forall u, List.length (carts_of u s d') <= 1.
Proof.
  destruct st; simpl; intros H Hd u.
  - apply insert_cart_inv in H as (-> & _ & _ & _ & Hn).
    unfold carts_of; simpl. rewrite filter_app, length_app. simpl.
    destruct (N.eqb (cart_user_id new) u && String.eqb (cart_status new) s)
      eqn:E; simpl; [|specialize (Hd u); unfold carts_of in Hd; lia].
    apply andb_true_iff in E as [E1 E2].
    apply N.eqb_eq in E1. apply String.eqb_eq in E2.
    rewrite existsb_false_filter; [simpl; lia|].
    apply existsb_ext_false with (f := same_user_status new); [|exact Hn].
    intros x Hx. apply andb_true_iff in Hx as [Hx1 Hx2].
    apply N.eqb_eq in Hx1. apply String.eqb_eq in Hx2.
    unfold same_user_status. rewrite E1, E2, Hx1, Hx2.
    now rewrite N.eqb_refl, String.eqb_refl.
  - apply update_cart_status_inv in H as [_ H].
    now apply carts_unique_at_most_one.
  - apply insert_cart_item_inv in H as [-> _]. apply Hd.
  - apply insert_order_inv in H as ->. apply Hd.
Qed.

Lemma writes_at_most_one s d d' :
  writes d d' ->
  (forall u, List.length (carts_of u s d) <= 1) ->
  forall u, List.length (carts_of u s d') <= 1.
Proof. induction 1; eauto using exec_at_most_one. Qed.

(** C3.  In every reachable database each user has at most one cart in
    status [active], and no handler (cart resolution, add-to-cart,
    checkout, the reads), run from any session on any database with that
    property, leaves a database without it. *)
Theorem at_most_one_active_cart :
  (forall d, reachable d ->
     forall u, List.length (carts_of u "active" d) <= 1)
  /\ (forall w a,
        (forall u, List.length (carts_of u "active" (database w)) <= 1) ->
        forall u,
          List.length (carts_of u "active" (database (after a w))) <= 1).
Proof.
  split.
  - intros d Hd u. apply carts_unique_at_most_one.
    now apply reachable_unique.
  - intros w a Hw. eapply writes_at_most_one; [apply after_writes|exact Hw].
Qed.

(** ** Running a handler by hand *)

Ltac handlers :=
  unfold after, returns, perform, loadItems, loadOrCreateCart, addToCart,
    viewCart, viewOrderHistory, checkout, bind, ret, throw, read, write,
    show, setItems, setCartId, setAddingToCart, setCheckingOut, with_page.

Ltac break_inner :=
  match goal with
  | |- context [match ?x with _ => _ end] =>
      lazymatch x with
      | context [match _ with _ => _ end] => fail
      | _ => destruct x eqn:?
      end
  end.

Ltac run := repeat (break_inner; simpl in *; try discriminate).

(** ** The status update of a later checkout *)

Lemma unique_by_same_eq (A : Type) (same : A -> A -> bool) (l : list A) x y :
  (forall a b, same a b = same b a) ->
  unique_by same l = true -> In x l -> In y l -> same x y = true -> x = y.
Proof.
  intros Hsym. induction l as [|a t IH]; simpl; intros Hu Hx Hy Hs; [easy|].
  apply andb_true_iff in Hu as [Ha Ht]. apply negb_true_iff in Ha.
  assert (Hno : forall z, In z t -> same a z = false).
  { intros z Hz. destruct (same a z) eqn:E; [|reflexivity].
    assert (existsb (same a) t = true) by (apply existsb_exists; eauto).
    congruence. }
  destruct Hx as [<-|Hx], Hy as [<-|Hy]; auto.
  - rewrite (Hno _ Hy) in Hs. discriminate.
  - rewrite Hsym, (Hno _ Hx) in Hs. discriminate.
Qed.

(** While user [u] has a cart [c0] in status [s], an update of another of
    their carts to [s] is either refused or changes no row. *)
Lemma update_cart_status_blocked u c s d d' c0 :
  In c0 (carts d) -> cart_user_id c0 = u -> cart_status c0 = s ->
  cart_id c0 <> c ->
  update_cart_status u c s d = Some d' -> carts d' = carts d.
Proof.
  intros Hin Hu Hs Hne H.
  apply update_cart_status_inv in H as [-> Huniq]. simpl.
  unfold carts_unique in Huniq. simpl in Huniq.
  rewrite <- (map_id (carts d)) at 2. apply map_ext_in. intros r Hr.
  assert (H0 : set_status u c s c0 = c0).
  { unfold set_status. apply N.eqb_neq in Hne. now rewrite Hne. }
  unfold set_status.
  destruct (N.eqb (cart_id r) c && carts_policy u r) eqn:E; [|reflexivity].
  apply andb_true_iff in E as [E1 E2].
  apply N.eqb_eq in E1. unfold carts_policy in E2. apply N.eqb_eq in E2.
  assert (Heq : set_status u c s r = c0).
  { apply (unique_by_same_eq same_user_status
             (map (set_status u c s) (carts d))); auto.
    - apply same_user_status_sym.
    - now apply in_map.
    - rewrite <- H0. now apply in_map.
    - unfold set_status. rewrite E1, N.eqb_refl. unfold carts_policy.
      rewrite <- E2 at 1. rewrite N.eqb_refl. simpl.
      unfold same_user_status. simpl.
      rewrite Hu, Hs, <- E2. now rewrite N.eqb_refl, String.eqb_refl. }
  exfalso. apply Hne. rewrite <- Heq. unfold set_status.
  rewrite E1, N.eqb_refl. unfold carts_policy. rewrite <- E2 at 1.
  now rewrite N.eqb_refl.
Qed.

(** C10.  In every reachable database each user has at most one cart in
    status [checked_out], because [UNIQUE(user_id, status)] covers every
    status; and while a user has a checked-out cart [c0], a checkout of
    another cart [c] of theirs leaves every row of [carts] as it was: the
    update of [c] to [checked_out] does not take effect. *)
Theorem at_most_one_checked_out_cart :
  (forall d, reachable d ->
     forall u, List.length (carts_of u "checked_out" d) <= 1)
  /\ (forall w u c c0 k1 k2 k3 k4,
        user (page w) = Some u -> cartId (page w) = Some c ->
        In c0 (carts (database w)) -> cart_user_id c0 = u ->
        cart_status c0 = "checked_out"%string -> cart_id c0 <> c ->
        forall r, In r (carts (database w)) ->
                  In r (carts (database (after (Checkout k1 k2 k3 k4) w)))).
Proof.
  split.
  - intros d Hd u. apply carts_unique_at_most_one.
    now apply reachable_unique.
  - intros w u c c0 k1 k2 k3 k4 Hu Hc Hin Hcu Hcs Hne r Hr.
    handlers. rewrite Hu, Hc. simpl. run; auto.
    all: repeat match goal with
         | H : insert_order _ _ _ = Some _ |- _ =>
             apply insert_order_inv in H; subst
         | H : insert_cart _ _ _ = Some _ |- _ =>
             apply insert_cart_inv in H; destruct H as [-> _]
         end; simpl in *.
    all: try match goal with
         | H : update_cart_status _ _ _ _ = Some _ |- _ =>
             apply (@update_cart_status_blocked _ _ _ _ _ c0) in H;
             [rewrite H; simpl|exact Hin|reflexivity|exact Hcs|exact Hne]
         end.
    all: auto using in_or_app.
Qed.

(** ** Checkout *)

Lemma rows_of_cart_none u c d :
  (forall r, In r (cart_items d) -> ci_cart_id r <> c) ->
  rows_of_cart u c d = [].
Proof.
  intro H. unfold rows_of_cart.
  induction (cart_items d) as [|r t IH]; simpl; [reflexivity|].
  assert (E : N.eqb (ci_cart_id r) c = false) by (apply N.eqb_neq, H; now left).
  rewrite E, andb_false_r. apply IH. intros x Hx. apply H. now right.
Qed.

(** C5.  When the current cart has no [cart_items] row, [checkout] shows
    the error "Cart is empty" and returns; the database, and so the orders,
    are as before, whether the fetch was answered or not. *)
Theorem checkout_empty_cart w u c k1 k2 k3 k4 :
  user (page w) = Some u -> cartId (page w) = Some c ->
  (forall r, In r (cart_items (database w)) -> ci_cart_id r <> c) ->
  let w' := after (Checkout k1 k2 k3 k4) w in
  toasts w' = toasts w ++ [toast_error "Cart is empty"]
  /\ database w' = database w
  /\ orders (database w') = orders (database w)
  /\ cartId (page w') = Some c
  /\ checkingOut (page w') = false
  /\ returns (Checkout k1 k2 k3 k4) w = true.
Proof.
  intros Hu Hc Hr. handlers. rewrite Hu, Hc. simpl.
  unfold select_cart_prices. rewrite rows_of_cart_none by exact Hr.
  destruct (refused k1); simpl; rewrite ?Hc; auto 10.
Qed.

(** C8.  When [checkout] has fetched a non-empty cart and computed its
    total, and the insert of the order row fails (the service rejects the
    call, or a constraint or the policy of [orders] refuses the row), it
    shows the error "Failed to create order" and returns: the database is
    as before, so neither the status update nor the new cart was issued,
    and the current cart id is kept. *)
Theorem checkout_order_insert_fails w u c k1 k2 k3 k4 total :
  user (page w) = Some u -> cartId (page w) = Some c ->
  refused k1 = false ->
  select_cart_prices u c (database w) <> [] ->
  reduce_total (select_cart_prices u c (database w)) Number.zero
  = Some total ->
  refused k2 = true
  \/ insert_order u (order_of k2 u c total) (database w) = None ->
  let w' := after (Checkout k1 k2 k3 k4) w in
  toasts w' = toasts w ++ [toast_error "Failed to create order"]
  /\ database w' = database w
  /\ cartId (page w') = Some c
  /\ checkingOut (page w') = false
  /\ returns (Checkout k1 k2 k3 k4) w = true.
Proof.
  intros Hu Hc Hk1 Hne Ht Hfail. handlers. rewrite Hu, Hc, Hk1. simpl.
  destruct (select_cart_prices u c (database w)) as [|i l] eqn:E;
    [congruence|].
  rewrite Ht. destruct Hfail as [Hk2|Hins].
  - rewrite Hk2. simpl. rewrite ?Hc. auto.
  - destruct (refused k2); simpl; rewrite ?Hc; auto.
    unfold order_of in Hins. rewrite Hins. simpl. rewrite ?Hc; auto.
Qed.

Lemma insert_cart_blocked u new d r :
  In r (carts d) -> cart_user_id r = cart_user_id new ->
  cart_status r = cart_status new -> insert_cart u new d = None.
Proof.
  intros Hin Hu Hs. unfold insert_cart.
  assert (E : existsb (same_user_status new) (carts d) = true).
  { apply existsb_exists. exists r. split; [exact Hin|].
    unfold same_user_status. rewrite Hu, Hs.
    now rewrite N.eqb_refl, String.eqb_refl. }
  rewrite E. simpl. now rewrite andb_false_r.
Qed.

Lemma set_status_cases u c s r :
  (set_status u c s r = r /\ (cart_id r <> c \/ cart_user_id r <> u))
  \/ (cart_id r = c /\ cart_user_id r = u
      /\ set_status u c s r
         = {| cart_id := c; cart_user_id := u; cart_status := s |}).
Proof.
  unfold set_status, carts_policy.
  destruct (N.eqb_spec (cart_id r) c) as [E1|E1]; simpl; [|auto].
  destruct (N.eqb_spec u (cart_user_id r)) as [E2|E2]; [|auto].
  right. subst. auto.
Qed.

Lemma update_keeps_unique u c s l :
  unique_by same_user_status l = true ->
  unique_by same_cart_id l = true ->
  (forall r, In r l -> cart_user_id r = u -> cart_status r <> s) ->
  unique_by same_user_status (map (set_status u c s) l) = true.
Proof.
  induction l as [|a t IH]; simpl; intros Hk Hid Hno; [reflexivity|].
  apply andb_true_iff in Hk as [Hka Hkt]. apply negb_true_iff in Hka.
  apply andb_true_iff in Hid as [Hia Hit]. apply negb_true_iff in Hia.
  rewrite IH by auto. rewrite andb_true_r. apply negb_true_iff.
  destruct (existsb _ (map _ t)) eqn:E; [exfalso|reflexivity].
  apply existsb_exists in E as (y & Hy & Hs).
  apply in_map_iff in Hy as (x & <- & Hx).
  assert (Hax : same_user_status a x = false).
  { destruct (same_user_status a x) eqn:E; [|reflexivity].
    assert (existsb (same_user_status a) t = true)
      by (apply existsb_exists; eauto).
    congruence. }
  assert (Hidx : cart_id a <> cart_id x).
  { intro E. assert (existsb (same_cart_id a) t = true).
    { apply existsb_exists. exists x. split; [exact Hx|].
      unfold same_cart_id. rewrite E. apply N.eqb_refl. }
    congruence. }
  unfold same_user_status in Hs, Hax.
  apply andb_true_iff in Hs as [Hs1 Hs2].
  apply N.eqb_eq in Hs1. apply String.eqb_eq in Hs2.
  destruct (set_status_cases u c s a) as [[Ea _]|(Ea1 & Ea2 & Ea)],
           (set_status_cases u c s x) as [[Ex _]|(Ex1 & Ex2 & Ex)];
    rewrite Ea, Ex in Hs1, Hs2; simpl in Hs1, Hs2.
  - rewrite Hs1, Hs2, N.eqb_refl, String.eqb_refl in Hax. discriminate.
  - apply (Hno a); auto.
  - apply (Hno x); auto.
  - congruence.
Qed.

Lemma insert_order_user uid new d d' :
  insert_order uid new d = Some d' -> user_exists (order_user_id new) d = true.
Proof.
  unfold insert_order. intro H.
  destruct (user_exists (order_user_id new) d); [reflexivity|].
  rewrite andb_false_r in H. discriminate.
Qed.

Lemma cart_exists_map_set_status u c s k l :
  existsb (fun r => N.eqb (cart_id r) k) (map (set_status u c s) l)
  = existsb (fun r => N.eqb (cart_id r) k) l.
Proof.
  induction l as [|a t IH]; simpl; [reflexivity|]. rewrite IH. f_equal.
  unfold set_status. now destruct (_ && _).
Qed.

(** Once the active cart [c] of [u] is set to another status, [u] has no
    active cart. *)
Lemma no_active_after_update u c s l :
  unique_by same_user_status l = true ->
  In {| cart_id := c; cart_user_id := u; cart_status := "active" |} l ->
  s <> "active"%string ->
  existsb (same_user_status
             {| cart_id := c; cart_user_id := u; cart_status := "active" |})
          (map (set_status u c s) l) = false.
Proof.
  intros Hk Hin Hs.
  destruct (existsb _ _) eqn:E; [exfalso|reflexivity].
  apply existsb_exists in E as (y & Hy & Hsame).
  apply in_map_iff in Hy as (x & <- & Hx).
  unfold same_user_status in Hsame.
  cbn [cart_user_id cart_status] in Hsame.
  apply andb_true_iff in Hsame as [H1 H2].
  apply N.eqb_eq in H1. apply String.eqb_eq in H2.
  destruct (set_status_cases u c s x) as [[Ex Hne]|(_ & _ & Ex)];
    rewrite Ex in H1, H2; cbn [cart_user_id cart_status] in H1, H2;
    [|congruence].
  assert (x = {| cart_id := c; cart_user_id := u; cart_status := "active" |}).
  { apply (unique_by_same_eq same_user_status l); auto.
    - apply same_user_status_sym.
    - unfold same_user_status. cbn [cart_user_id cart_status].
      now rewrite <- H1, <- H2, N.eqb_refl, String.eqb_refl. }
  subst x. cbn [cart_id cart_user_id] in Hne. destruct Hne; congruence.
Qed.

(** The first checkout.  For a user without a checked-out cart,
    a checkout of their active cart [c] every call of which is accepted
    adds the order row, sets [c] to [checked_out], and adds one active
    cart, which is the user's only active cart and the current one. *)
Lemma first_checkout_rotates_cart w u c k1 k2 k3 k4 total :
  user (page w) = Some u -> cartId (page w) = Some c ->
  carts_unique (database w) ->
  unique_by same_cart_id (carts (database w)) = true ->
  In {| cart_id := c; cart_user_id := u; cart_status := "active" |}
     (carts (database w)) ->
  carts_of u "checked_out" (database w) = [] ->
  refused k1 = false -> refused k2 = false ->
  refused k3 = false -> refused k4 = false ->
  select_cart_prices u c (database w) <> [] ->
  reduce_total (select_cart_prices u c (database w)) Number.zero
  = Some total ->
  insert_order u (order_of k2 u c total) (database w) <> None ->
  cart_exists (uuid_v4 k4) (database w) = false ->
  let w' := after (Checkout k1 k2 k3 k4) w in
  toasts w' = toasts w ++ [toast_success "Order successful!"]
  /\ orders (database w') = orders (database w) ++ [order_of k2 u c total]
  /\ carts (database w')
     = map (set_status u c "checked_out") (carts (database w))
       ++ [cart_of k4 u]
  /\ In {| cart_id := c; cart_user_id := u; cart_status := "checked_out" |}
        (carts (database w'))
  /\ carts_of u "active" (database w') = [cart_of k4 u]
  /\ cartId (page w') = Some (uuid_v4 k4).
Proof.
  intros Hu Hc Huniq Hpk Hact Hnone Hk1 Hk2 Hk3 Hk4 Hrows Ht Hins Hfresh.
  set (f := set_status u c "checked_out").
  assert (Hupd : forall d1, carts d1 = carts (database w) ->
            update_cart_status u c "checked_out" d1
            = Some (with_carts (map f (carts (database w))) d1)).
  { intros d1 Hd1. unfold update_cart_status. rewrite Hd1. fold f.
    unfold f. rewrite update_keeps_unique; auto.
    intros r Hr Hru Hrs.
    assert (Hin : In r (carts_of u "checked_out" (database w))).
    { apply filter_In. split; [exact Hr|].
      now rewrite Hru, Hrs, N.eqb_refl, String.eqb_refl. }
    rewrite Hnone in Hin. destruct Hin. }
  assert (Hfree : existsb (same_user_status (cart_of k4 u))
                          (map f (carts (database w))) = false).
  { rewrite <- (@no_active_after_update u c "checked_out"
                  (carts (database w))); auto; discriminate. }
  handlers. rewrite Hu, Hc, Hk1. simpl.
  destruct (select_cart_prices u c (database w)) as [|i l] eqn:E;
    [congruence|].
  rewrite Ht, Hk2. unfold order_of in Hins. simpl.
  destruct (insert_order u _ (database w)) as [d1|] eqn:E1; [|congruence].
  pose proof (insert_order_user _ _ _ E1) as Huser. simpl in Huser.
  apply insert_order_inv in E1. simpl.
  rewrite Hk3, Hupd by (subst d1; reflexivity). simpl. rewrite Hk4.
  assert (Hnew : insert_cart u (cart_of k4 u)
                   (with_carts (map f (carts (database w))) d1)
                 = Some (with_carts (map f (carts (database w))
                                     ++ [cart_of k4 u]) d1)).
  { unfold insert_cart, carts_policy, cart_exists, user_exists. simpl.
    unfold f at 1. rewrite cart_exists_map_set_status.
    unfold cart_exists in Hfresh. rewrite Hfresh, Hfree, N.eqb_refl.
    subst d1. simpl. unfold user_exists in Huser. now rewrite Huser. }
  unfold cart_of in Hnew. rewrite Hnew. simpl. subst d1. simpl.
  repeat split; auto.
  - apply in_or_app. left.
    apply in_map_iff.
    exists {| cart_id := c; cart_user_id := u; cart_status := "active" |}.
    split; [|exact Hact].
    unfold f, set_status, carts_policy. cbn [cart_id cart_user_id].
    now rewrite !N.eqb_refl.
  - unfold carts_of. simpl. rewrite filter_app. simpl.
    rewrite N.eqb_refl. simpl.
    rewrite existsb_false_filter; [reflexivity|].
    apply existsb_ext_false with (f := same_user_status (cart_of k4 u));
      [|exact Hfree].
    intros x Hx. unfold same_user_status. simpl.
    apply andb_true_iff in Hx as [Hx1 Hx2].
    apply N.eqb_eq in Hx1. apply String.eqb_eq in Hx2.
    now rewrite Hx1, Hx2, N.eqb_refl.
Qed.

(** C1, at a second or later checkout.  When the user already has a
    checked-out cart [c0], a checkout of their active cart [c] that inserts
    its order and announces "Order successful!" changes no row of [carts]
    and keeps [c] as the current cart: [c] is still [active] and no new
    cart exists. *)
Theorem later_checkout_changes_no_cart w u c c0 k1 k2 k3 k4 total :
  user (page w) = Some u -> cartId (page w) = Some c ->
  In {| cart_id := c; cart_user_id := u; cart_status := "active" |}
     (carts (database w)) ->
  In c0 (carts (database w)) -> cart_user_id c0 = u ->
  cart_status c0 = "checked_out"%string -> cart_id c0 <> c ->
  refused k1 = false ->
  select_cart_prices u c (database w) <> [] ->
  reduce_total (select_cart_prices u c (database w)) Number.zero
  = Some total ->
  refused k2 = false ->
  insert_order u (order_of k2 u c total) (database w) <> None ->
  let w' := after (Checkout k1 k2 k3 k4) w in
  toasts w' = toasts w ++ [toast_success "Order successful!"]
  /\ orders (database w') = orders (database w) ++ [order_of k2 u c total]
  /\ carts (database w') = carts (database w)
  /\ cartId (page w') = Some c.
Proof.
  intros Hu Hc Hact Hin Hcu Hcs Hne Hk1 Hrows Ht Hk2 Hins.
  handlers. rewrite Hu, Hc, Hk1. simpl.
  destruct (select_cart_prices u c (database w)) as [|i l] eqn:E;
    [congruence|].
  rewrite Ht, Hk2. unfold order_of in Hins. simpl.
  destruct (insert_order u _ (database w)) as [d1|] eqn:E1; [|congruence].
  apply insert_order_inv in E1. simpl.
  assert (Hact1 : In {| cart_id := c; cart_user_id := u;
                        cart_status := "active" |} (carts d1))
    by (subst d1; exact Hact).
  assert (Hin1 : In c0 (carts d1)) by (subst d1; exact Hin).
  assert (Hd1 : carts d1 = carts (database w)) by (subst d1; reflexivity).
  assert (Ho1 : orders d1 = orders (database w)
                            ++ [order_of k2 u c total])
    by (subst d1; reflexivity).
  clear E1.
  destruct (refused k3); simpl.
  - destruct (refused k4); simpl; rewrite ?Hc; auto.
    rewrite (@insert_cart_blocked u _ d1 _ Hact1) by reflexivity.
    simpl. rewrite ?Hc. auto.
  - destruct (update_cart_status u c "checked_out" d1) as [d2|] eqn:E2; simpl.
    + pose proof (update_cart_status_inv _ _ _ _ E2) as [Hd2 _].
      apply (@update_cart_status_blocked _ _ _ _ _ c0) in E2; auto.
      assert (Ho2 : orders d2 = orders d1) by (subst d2; reflexivity).
      assert (Hact2 : In {| cart_id := c; cart_user_id := u;
                            cart_status := "active" |} (carts d2))
        by (rewrite E2; exact Hact1).
      destruct (refused k4); simpl; rewrite ?Hc.
      * repeat split; congruence.
      * rewrite (@insert_cart_blocked u _ d2 _ Hact2) by reflexivity.
        simpl. rewrite ?Hc. repeat split; congruence.
    + destruct (refused k4); simpl; rewrite ?Hc; auto.
      rewrite (@insert_cart_blocked u _ d1 _ Hact1) by reflexivity.
      simpl. rewrite ?Hc. auto.
Qed.

(** ** Add to cart *)

Lemma filter_twice (A : Type) (f g : A -> bool) (l : list A) :
  filter g (filter f l) = filter (fun x => f x && g x) l.
Proof.
  induction l as [|x t IH]; simpl; [reflexivity|].
  destruct (f x); simpl; [|exact IH]. destruct (g x); now rewrite IH.
Qed.

Lemma filter_nil_weaken (A : Type) (p q : A -> bool) (l : list A) :
  (forall x, q x = true -> p x = true) -> filter p l = [] -> filter q l = [].
Proof.
  intros Hqp. induction l as [|x t IH]; simpl; [reflexivity|].
  destruct (p x) eqn:Ep; [discriminate|]. intro Ht.
  destruct (q x) eqn:Eq; [|auto]. apply Hqp in Eq. congruence.
Qed.

(** The lookup of [addToCart] sees the rows of the pair when the caller
    owns the cart, and never more than them. *)
Lemma select_ids_of_pair u c i d :
  owns_cart u c d = true ->
  select_cart_item_ids u c i d = map ci_id (rows_of_pair c i d).
Proof.
  intro Ho. unfold select_cart_item_ids, rows_of_cart, rows_of_pair.
  rewrite filter_twice. f_equal. apply filter_ext. intro r.
  destruct (N.eqb (ci_cart_id r) c) eqn:E; simpl.
  - apply N.eqb_eq in E. unfold cart_items_policy. rewrite E.
    unfold owns_cart in Ho. now rewrite Ho.
  - now rewrite andb_false_r.
Qed.

Lemma select_ids_none u c i d :
  rows_of_pair c i d = [] -> select_cart_item_ids u c i d = [].
Proof.
  intro H. unfold select_cart_item_ids, rows_of_cart.
  rewrite filter_twice.
  rewrite (filter_nil_weaken
             (fun r => N.eqb (ci_cart_id r) c && N.eqb (ci_item_id r) i));
    [reflexivity| |exact H].
  intros r Hr. apply andb_true_iff in Hr as [Hr1 Hr2].
  apply andb_true_iff in Hr1 as [_ Hr1]. now rewrite Hr1, Hr2.
Qed.

Lemma owns_cart_exists u c d : owns_cart u c d = true -> cart_exists c d = true.
Proof.
  unfold owns_cart, cart_exists. intro H.
  apply existsb_exists in H as (r & Hr & H). apply andb_true_iff in H as [H _].
  apply existsb_exists. eauto.
Qed.

Lemma pair_row_blocks_insert u k c i d :
  rows_of_pair c i d <> [] -> insert_cart_item u (cart_item_of k c i) d = None.
Proof.
  intro H. unfold insert_cart_item.
  assert (E : existsb (same_cart_item (cart_item_of k c i)) (cart_items d)
              = true).
  { destruct (rows_of_pair c i d) as [|r t] eqn:Er; [congruence|].
    assert (Hr : In r (rows_of_pair c i d)) by (rewrite Er; now left).
    apply filter_In in Hr as [Hr1 Hr2]. apply andb_true_iff in Hr2 as [H1 H2].
    apply existsb_exists. exists r. split; [exact Hr1|].
    unfold same_cart_item. simpl.
    now rewrite (N.eqb_sym c), (N.eqb_sym i), H1, H2. }
  rewrite E. simpl. now rewrite andb_false_r.
Qed.

(** When the pair has a row, [addToCart] writes nothing, whatever the
    service answers. *)
Lemma addToCart_present_no_write w u c i k1 k2 :
  user (page w) = Some u -> cartId (page w) = Some c ->
  rows_of_pair c i (database w) <> [] ->
  database (after (AddToCart i k1 k2) w) = database w.
Proof.
  intros Hu Hc Hr. handlers. rewrite Hu, Hc. simpl.
  pose proof (@pair_row_blocks_insert u k2 c i (database w) Hr) as Hb.
  unfold cart_item_of in Hb.
  run; try reflexivity; congruence.
Qed.

(** C4.  For the owner of cart [c]: when the pair (cart [c], item [i])
    has a row and the lookup is answered, [addToCart] shows "Item already
    in cart" and writes nothing; when it has none and the insert goes
    through, exactly the row of quantity 1 is added; and after that a
    second [addToCart] of the same item writes nothing, so the pair keeps
    exactly one row.  Whatever the service answers, two calls leave the
    pair with at most one row. *)
Theorem add_to_cart_idempotent w u c i k1 k2 :
  user (page w) = Some u -> cartId (page w) = Some c ->
  owns_cart u c (database w) = true ->
  let w' := after (AddToCart i k1 k2) w in
  (cart_items_unique (database w) ->
   rows_of_pair c i (database w) <> [] -> refused k1 = false ->
   toasts w' = toasts w ++ [toast_info "Item already in cart"]
   /\ database w' = database w)
  /\ (rows_of_pair c i (database w) = [] ->
      refused k2 = false ->
      item_exists i (database w) = true ->
      existsb (fun r => N.eqb (ci_id r) (uuid_v4 k2))
              (cart_items (database w)) = false ->
      toasts w' = toasts w ++ [toast_success "Added to cart!"]
      /\ database w'
         = with_cart_items
             (cart_items (database w) ++ [cart_item_of k2 c i]) (database w)
      /\ rows_of_pair c i (database w') = [cart_item_of k2 c i]
      /\ forall k1' k2',
           let w'' := after (AddToCart i k1' k2') w' in
           database w'' = database w'
           /\ List.length (rows_of_pair c i (database w'')) = 1)
  /\ (cart_items_unique (database w) ->
      forall k1' k2',
        List.length
          (rows_of_pair c i (database (after (AddToCart i k1' k2') w')))
        <= 1).
Proof.
  intros Hu Hc Ho w'. split; [|split].
  3: { intros Huniq k1' k2'. apply cart_items_unique_at_most_one.
       eapply writes_cart_items_unique; [apply after_writes|].
       eapply writes_cart_items_unique; [apply after_writes|exact Huniq]. }
  - intros Huniq Hr Hk1.
    split; [|now apply addToCart_present_no_write with u c].
    subst w'. handlers. rewrite Hu, Hc, Hk1. simpl.
    rewrite (@select_ids_of_pair u c i (database w) Ho).
    pose proof (@cart_items_unique_at_most_one (database w) c i Huniq) as Hle.
    destruct (rows_of_pair c i (database w)) as [|r [|r' t]]; simpl in *;
      [congruence|reflexivity|lia].
  - intros Hr Hk2 Hi Hpk.
    assert (Hins : insert_cart_item u (cart_item_of k2 c i) (database w)
                   = Some (with_cart_items
                             (cart_items (database w) ++ [cart_item_of k2 c i])
                             (database w))).
    { assert (Hfree : existsb (same_cart_item (cart_item_of k2 c i))
                              (cart_items (database w)) = false).
      { destruct (existsb (same_cart_item (cart_item_of k2 c i))
                          (cart_items (database w))) eqn:E; [|reflexivity].
        apply existsb_exists in E as (r & Hr1 & Hr2).
        assert (Hin : In r (rows_of_pair c i (database w))).
        { apply filter_In. split; [exact Hr1|].
          unfold same_cart_item in Hr2. simpl in Hr2.
          now rewrite (N.eqb_sym _ c), (N.eqb_sym _ i). }
        rewrite Hr in Hin. destruct Hin. }
      unfold insert_cart_item. rewrite Hfree. simpl.
      unfold cart_items_policy. simpl. unfold owns_cart in Ho. rewrite Ho.
      rewrite Hpk. unfold cart_exists.
      pose proof (@owns_cart_exists u c (database w) Ho) as Hex.
      unfold cart_exists in Hex. rewrite Hex, Hi. reflexivity. }
    assert (Hw' : toasts w' = toasts w ++ [toast_success "Added to cart!"]
                  /\ database w'
                     = with_cart_items
                         (cart_items (database w) ++ [cart_item_of k2 c i])
                         (database w)
                  /\ user (page w') = Some u /\ cartId (page w') = Some c).
    { subst w'. handlers. rewrite Hu, Hc. simpl.
      unfold cart_item_of in Hins.
      destruct (refused k1); simpl;
        rewrite ?(@select_ids_none u c i (database w) Hr), ?Hk2; simpl;
        rewrite Hins; simpl; auto. }
    destruct Hw' as (Ht & Hd & Hu' & Hc').
    assert (Hrows : rows_of_pair c i (database w') = [cart_item_of k2 c i]).
    { rewrite Hd. unfold rows_of_pair in *. simpl.
      rewrite filter_app, Hr. simpl. now rewrite !N.eqb_refl. }
    repeat split; auto.
    + apply addToCart_present_no_write with u c; auto.
      rewrite Hrows. discriminate.
    + rewrite (@addToCart_present_no_write w' u c i k1' k2'); auto.
      * now rewrite Hrows.
      * rewrite Hrows. discriminate.
Qed.

(** ** The total of a checkout *)

Lemma reduce_total_snoc rows r p sum :
  PricedItem.items r = Some p ->
  reduce_total (rows ++ [r]) sum
  = option_map
      (fun s => Number.add s (Number.mul p (PricedItem.quantity r)))
      (reduce_total rows sum).
Proof.
  intro Hp. revert sum.
  induction rows as [|x t IH]; intro sum; unfold reduce_total; simpl.
  - now rewrite Hp.
  - fold reduce_total. destruct (PricedItem.items x); [apply IH|reflexivity].
Qed.

(** C2, as the specification states it, fails on its own example: with
    the sneakers (79.99) and the yoga mat (34.99) in the cart, the exact
    total is 114.98 and the total [checkout] computes is not the number
    114.98. *)
Lemma checkout_total_not_exact :
  Example.filled_rows <> []
  /\ spec_total_cents Example.alice Example.first_cart
                      (database Example.filled) = 11498%Z
  /\ reduce_total Example.filled_rows Number.zero
     <> Some (Number.of_decimal2
                (spec_total_cents Example.alice Example.first_cart
                                  (database Example.filled))).
Proof.
  repeat split.
  - vm_compute. discriminate.
  - vm_compute. discriminate.
Qed.

(** C2, amended.  The total of [checkout] is the binary64 sum of the
    binary64 products price times quantity, accumulated from [0] in row
    order, each operation rounding to nearest: a further row adds its
    rounded product to the total of the rows before it.  For the sneakers
    and the yoga mat it is 8090998205547806 * 2^-46 (114.97999999999999),
    one unit in the last place below the number 114.98, and less than half
    a hundredth away from 114.98. *)
Theorem checkout_total_is_binary64_sum :
  (forall rows r p,
     PricedItem.items r = Some p ->
     reduce_total (rows ++ [r]) Number.zero
     = option_map
         (fun s => Number.add s (Number.mul p (PricedItem.quantity r)))
         (reduce_total rows Number.zero))
  /\ reduce_total Example.filled_rows Number.zero
     = Some (S754_finite false 8090998205547806 (-46))
  /\ Number.of_decimal2 11498 = S754_finite false 8090998205547807 (-46)
  /\ (114975 * 2 ^ 46 < 8090998205547806 * 1000 < 114985 * 2 ^ 46)%Z.
Proof.
  split; [|split; [|split]].
  - intros rows r p Hp. now apply reduce_total_snoc.
  - vm_compute. reflexivity.
  - vm_compute. reflexivity.
  - vm_compute. split; reflexivity.
Qed.

(** One more row: the yoga mat after no row. *)
Lemma checkout_total_is_binary64_sum_witness :
  reduce_total
    ([] ++ [{| PricedItem.item_id := 15%N;
               PricedItem.quantity := Number.of_Z 1;
               PricedItem.items := Some (Number.of_decimal2 3499) |}])
    Number.zero
  = option_map
      (fun s => Number.add s (Number.mul (Number.of_decimal2 3499)
                                         (Number.of_Z 1)))
      (reduce_total [] Number.zero).
Proof.
  apply (proj1 checkout_total_is_binary64_sum). reflexivity.
Defined.

(** ** Empty results and failed reads *)

(** C6, as the specification states it, fails at the fetch of [checkout]:
    on the empty first cart, the fetch that is answered (with no row) and
    the fetch that fails leave the same world, with the same error toast. *)
Lemma checkout_empty_same_as_failed :
  select_cart_prices Example.alice Example.first_cart
                     (database Example.opened) = []
  /\ after (Example.pay 300%N Example.second_cart) Example.opened
     = after (Example.pay_unanswered 300%N Example.second_cart) Example.opened
  /\ toasts (after (Example.pay 300%N Example.second_cart) Example.opened)
     = [toast_error "Cart is empty"].
Proof. repeat split. Qed.

(** C6, amended.  The item listing, the cart view and the order history
    tell an empty result from a failed read: the failed read shows an
    error toast and changes nothing else; the empty result shows no toast
    and an empty listing for the items, and an informational toast for the
    cart ("Your cart is empty") and the orders ("No orders yet").  The
    fetch of [checkout] does not: failed or empty, it shows the error
    "Cart is empty".  (An empty listing renders "No items available".) *)
Theorem empty_result_or_failed_read w :
  (forall k,
     let w' := after (LoadItems k) w in
     (refused k = true ->
      toasts w' = toasts w ++ [toast_error "Failed to load items"]
      /\ page w' = page w)
     /\ (refused k = false -> select_items (database w) = [] ->
         toasts w' = toasts w /\ no_items_available (page w') = true))
  /\ (forall k u c,
        user (page w) = Some u -> cartId (page w) = Some c ->
        let w' := after (ViewCart k) w in
        (refused k = true ->
         toasts w' = toasts w ++ [toast_error "Failed to load cart"])
        /\ (refused k = false -> select_cart_names u c (database w) = [] ->
            toasts w' = toasts w ++ [toast_info "Your cart is empty"]))
  /\ (forall k u,
        user (page w) = Some u ->
        let w' := after (ViewOrderHistory k) w in
        (refused k = true ->
         toasts w' = toasts w ++ [toast_error "Failed to load order history"])
        /\ (refused k = false -> select_orders u u (database w) = [] ->
            toasts w' = toasts w ++ [toast_info "No orders yet"]))
  /\ (forall k1 k2 k3 k4 u c,
        user (page w) = Some u -> cartId (page w) = Some c ->
        refused k1 = true
        \/ select_cart_prices u c (database w) = [] ->
        toasts (after (Checkout k1 k2 k3 k4) w)
        = toasts w ++ [toast_error "Cart is empty"]).
Proof.
  split; [|split; [|split]].
  - intros k w'. subst w'. handlers. split.
    + intros ->. simpl. now destruct w.
    + intros -> E. simpl. now rewrite E.
  - intros k u c Hu Hc w'. subst w'. handlers. rewrite Hu, Hc. split.
    + now intros ->.
    + intros -> E. simpl. now rewrite E.
  - intros k u Hu w'. subst w'. handlers. rewrite Hu. split.
    + now intros ->.
    + intros -> E. simpl. now rewrite E.
  - intros k1 k2 k3 k4 u c Hu Hc H. handlers. rewrite Hu, Hc. simpl.
    destruct (refused k1) eqn:E; [reflexivity|].
    destruct H as [H|H]; [discriminate|]. simpl. now rewrite H.
Qed.

(** ** The cart lookup *)

(** C7, on the code.  When the lookup of the active cart fails,
    [loadOrCreateCart] reports nothing and goes on to insert a cart: if the
    insert is accepted the table has a new row, which becomes the current
    cart. *)
Theorem failed_cart_lookup_still_inserts w u k1 k2 d' :
  user (page w) = Some u ->
  refused k1 = true -> refused k2 = false ->
  insert_cart u (cart_of k2 u) (database w) = Some d' ->
  let w' := after (LoadOrCreateCart k1 k2) w in
  database w' = d'
  /\ carts d' = carts (database w) ++ [cart_of k2 u]
  /\ toasts w' = toasts w
  /\ cartId (page w') = Some (uuid_v4 k2).
Proof.
  intros Hu Hk1 Hk2 Hins. handlers. rewrite Hu, Hk1. simpl. rewrite Hk2.
  unfold cart_of in Hins. rewrite Hins. simpl.
  apply insert_cart_inv in Hins as (-> & _). auto.
Qed.

(** ** The signup hook *)

(** The local part: [split_part_1] gives the text before the first [@]. *)
Lemma split_part_1_local (l r : string) :
  (forall c, In c (list_ascii_of_string l) -> c <> "@"%char) ->
  split_part_1 "@" (l ++ String "@" r) = l.
Proof.
  induction l as [|c t IH]; simpl; intro H; [reflexivity|].
  assert (E : Ascii.eqb c "@" = false) by (apply Ascii.eqb_neq, H; now left).
  rewrite E, IH; auto.
Qed.

(** C9, as the specification states it, fails for an identity with
    neither a username in its metadata nor an email: the hook derives no
    username, the insert is refused by [NOT NULL], and the signup leaves
    no profile row, and no user. *)
Lemma no_default_username :
  new_username Example.by_phone = None
  /\ handle_new_user Example.by_phone
       (with_auth_users (auth_users Example.shop_db ++ [Example.by_phone])
                        Example.shop_db) = None
  /\ signup Example.by_phone Example.shop_db = None.
Proof. repeat split. Qed.

(** C9, amended.  The username the hook inserts is the [username] of the
    metadata when there is one, otherwise the local part of the email when
    there is one; there is no further default.  The hook creates a profile
    row, with that username, exactly when there is such a value, the
    identity is in [auth.users], has no profile yet, and the username is
    not taken; so a signup goes through, adding the identity and that
    row, exactly when the identity is new, there is such a value, and
    neither its id nor the username is in [profiles].  In every other
    case nothing is inserted. *)
Theorem handle_new_user_username new d :
  (forall m,
     jsonb_get_text (au_raw_user_meta_data new) "username" = Some m ->
     new_username new = Some m)
  /\ (forall l r,
        jsonb_get_text (au_raw_user_meta_data new) "username" = None ->
        au_email new = Some (l ++ String "@" r)%string ->
        (forall c, In c (list_ascii_of_string l) -> c <> "@"%char) ->
        new_username new = Some l)
  /\ (jsonb_get_text (au_raw_user_meta_data new) "username" = None ->
      au_email new = None -> new_username new = None)
  /\ (forall d',
        handle_new_user new d = Some d' <->
        exists n,
          new_username new = Some n
          /\ user_exists (au_id new) d = true
          /\ existsb (fun p => N.eqb (profile_id p) (au_id new)) (profiles d)
             = false
          /\ existsb (fun p => String.eqb (profile_username p) n)
                     (profiles d) = false
          /\ d' = with_profiles
                    (profiles d ++ [{| profile_id := au_id new;
                                       profile_username := n |}]) d)
  /\ (forall d',
        signup new d = Some d' <->
        exists n,
          new_username new = Some n
          /\ user_exists (au_id new) d = false
          /\ existsb (fun p => N.eqb (profile_id p) (au_id new)) (profiles d)
             = false
          /\ existsb (fun p => String.eqb (profile_username p) n)
                     (profiles d) = false
          /\ d' = with_profiles
                    (profiles d ++ [{| profile_id := au_id new;
                                       profile_username := n |}])
                    (with_auth_users (auth_users d ++ [new]) d)).
Proof.
  assert (Hook : forall d0 d',
            handle_new_user new d0 = Some d' <->
            exists n,
              new_username new = Some n
              /\ user_exists (au_id new) d0 = true
              /\ existsb (fun p => N.eqb (profile_id p) (au_id new))
                         (profiles d0) = false
              /\ existsb (fun p => String.eqb (profile_username p) n)
                         (profiles d0) = false
              /\ d' = with_profiles
                        (profiles d0 ++ [{| profile_id := au_id new;
                                            profile_username := n |}]) d0).
  { intros d0 d'. unfold handle_new_user, insert_profile. split.
    - destruct (new_username new) as [n|]; intro H; [|discriminate].
      destruct (existsb (fun p => N.eqb (profile_id p) (au_id new))
                        (profiles d0)) eqn:E1; [discriminate|].
      destruct (user_exists (au_id new) d0) eqn:E2; [|discriminate].
      destruct (existsb (fun p => String.eqb (profile_username p) n)
                        (profiles d0)) eqn:E3; [discriminate|].
      simpl in H. injection H as <-. exists n. auto.
    - intros (n & -> & -> & -> & -> & ->). reflexivity. }
  split; [|split; [|split; [|split]]].
  - unfold new_username. now intros m ->.
  - unfold new_username. intros l r -> -> Hl. simpl.
    now rewrite split_part_1_local.
  - unfold new_username. now intros -> ->.
  - apply Hook.
  - intros d'. unfold signup.
    assert (Hnew : user_exists (au_id new)
                     (with_auth_users (auth_users d ++ [new]) d) = true).
    { unfold user_exists. cbn [auth_users with_auth_users].
      rewrite existsb_app. simpl. now rewrite N.eqb_refl, orb_true_r. }
    destruct (user_exists (au_id new) d) eqn:Eu.
    + split; [discriminate|]. intros (n & _ & H & _). discriminate.
    + rewrite Hook. cbn [profiles with_auth_users]. split.
      * intros (n & Hn & _ & H1 & H2 & ->). exists n. auto.
      * intros (n & Hn & _ & H1 & H2 & ->). exists n. auto.
Qed.

(** ** The properties on the example session *)

Ltac evaluated :=
  first [ reflexivity
        | vm_compute; first [reflexivity | discriminate | lia | tauto ] ].

(** The example session only runs handlers, so its databases are
    reachable. *)
Lemma run_reachable l w :
  reachable (database w) -> reachable (database (Example.run l w)).
Proof.
  revert w. induction l as [|a l IH]; simpl; intros w H; [exact H|].
  apply IH. destruct w. now apply reachable_after.
Qed.

Lemma second_visit_reachable : reachable (database Example.second_visit).
Proof.
  unfold Example.second_visit, Example.filled, Example.opened.
  repeat apply run_reachable. apply reach_start; reflexivity.
Qed.

(** The first checkout of the example closes the cart and opens the
    next one. *)
Lemma first_checkout_example :
  let w' := after (Example.pay 300%N Example.second_cart) Example.filled in
  carts (database w')
  = [{| cart_id := Example.first_cart; cart_user_id := Example.alice;
        cart_status := "checked_out" |};
     {| cart_id := Example.second_cart; cart_user_id := Example.alice;
        cart_status := "active" |}]
  /\ List.length (orders (database w')) = 1
  /\ cartId (page w') = Some Example.second_cart.
Proof.
  assert (H : user (page Example.filled) = Some Example.alice) by reflexivity.
  apply (@first_checkout_rotates_cart
           Example.filled Example.alice Example.first_cart
           (Example.ok 0%N) (Example.ok 300%N) (Example.ok 0%N)
           (Example.ok Example.second_cart)
           (S754_finite false 8090998205547806 (-46))) in H;
    [|evaluated ..].
  destruct H as (_ & Ho & Hc & _ & _ & Hi).
  cbv zeta. unfold Example.pay. rewrite Hc, Ho, Hi. repeat split.
Qed.

(** The second checkout of the example session. *)
Lemma later_checkout_changes_no_cart_witness :
  let w' := after Example.second_checkout Example.second_visit in
  toasts w'
  = toasts Example.second_visit ++ [toast_success "Order successful!"]
  /\ orders (database w')
     = orders (database Example.second_visit)
       ++ [order_of (Example.ok 301%N) Example.alice Example.second_cart
                    (Number.of_decimal2 3499)]
  /\ carts (database w') = carts (database Example.second_visit)
  /\ cartId (page w') = Some Example.second_cart.
Proof.
  apply (@later_checkout_changes_no_cart
           Example.second_visit Example.alice Example.second_cart
           {| cart_id := Example.first_cart; cart_user_id := Example.alice;
              cart_status := "checked_out" |}
           (Example.ok 0%N) (Example.ok 301%N) (Example.ok 0%N)
           (Example.ok 102%N)
           (Number.of_decimal2 3499)); evaluated.
Defined.

(** The opened page, and the second checkout. *)
Lemma at_most_one_active_cart_witness :
  List.length (carts_of Example.alice "active" (database Example.opened)) <= 1
  /\ List.length
       (carts_of Example.alice "active"
                 (database (after Example.second_checkout
                                  Example.second_visit))) <= 1.
Proof.
  split.
  - apply (proj1 at_most_one_active_cart).
    apply (reach_action (page Example.start) (toasts Example.start)
                        (LoadOrCreateCart (Example.ok 0%N)
                                          (Example.ok Example.first_cart))).
    apply reach_start; reflexivity.
  - apply (proj2 at_most_one_active_cart).
    intro u. vm_compute.
    destruct u as [|[p|p|]]; simpl; lia.
Defined.

(** The opened page, and the second checkout: the second cart stays
    [active]. *)
Lemma at_most_one_checked_out_cart_witness :
  List.length
    (carts_of Example.alice "checked_out" (database Example.opened)) <= 1
  /\ In {| cart_id := Example.second_cart; cart_user_id := Example.alice;
           cart_status := "active" |}
        (carts (database (after Example.second_checkout
                                Example.second_visit))).
Proof.
  split.
  - apply (proj1 at_most_one_checked_out_cart).
    apply (reach_action (page Example.start) (toasts Example.start)
                        (LoadOrCreateCart (Example.ok 0%N)
                                          (Example.ok Example.first_cart))).
    apply reach_start; reflexivity.
  - apply (proj2 at_most_one_checked_out_cart
             Example.second_visit Example.alice Example.second_cart
             {| cart_id := Example.first_cart; cart_user_id := Example.alice;
                cart_status := "checked_out" |}); evaluated.
Defined.

(** The sneakers, added to the filled cart and to the empty one. *)
Lemma add_to_cart_idempotent_witness :
  (let w' := after (AddToCart Example.sneakers (Example.ok 0%N)
                              (Example.ok 203%N))
                   Example.filled in
   toasts w' = toasts Example.filled ++ [toast_info "Item already in cart"]
   /\ database w' = database Example.filled)
  /\ (let w' := after (AddToCart Example.sneakers (Example.ok 0%N)
                                 (Example.ok 200%N))
                      Example.opened in
      rows_of_pair Example.first_cart Example.sneakers (database w')
      = [cart_item_of (Example.ok 200%N) Example.first_cart Example.sneakers]
      /\ List.length
           (rows_of_pair Example.first_cart Example.sneakers
              (database (after (AddToCart Example.sneakers Example.down
                                          (Example.ok 204%N))
                               w'))) = 1).
Proof.
  split.
  - apply (proj1 (@add_to_cart_idempotent
                    Example.filled Example.alice Example.first_cart
                    Example.sneakers
                    (Example.ok 0%N) (Example.ok 203%N)
                    eq_refl eq_refl eq_refl)); evaluated.
  - pose proof (proj1 (proj2 (@add_to_cart_idempotent
                                Example.opened Example.alice
                                Example.first_cart Example.sneakers
                                (Example.ok 0%N) (Example.ok 200%N)
                                eq_refl eq_refl eq_refl))
                      eq_refl eq_refl eq_refl eq_refl) as (_ & _ & H1 & H2).
    split; [exact H1|].
    exact (proj2 (H2 Example.down (Example.ok 204%N))).
Defined.

(** A checkout of the empty first cart. *)
Lemma checkout_empty_cart_witness :
  let w' := after (Example.pay 300%N Example.second_cart) Example.opened in
  toasts w' = toasts Example.opened ++ [toast_error "Cart is empty"]
  /\ database w' = database Example.opened
  /\ orders (database w') = orders (database Example.opened)
  /\ cartId (page w') = Some Example.first_cart
  /\ checkingOut (page w') = false
  /\ returns (Example.pay 300%N Example.second_cart) Example.opened = true.
Proof.
  apply (@checkout_empty_cart Example.opened Example.alice Example.first_cart);
    try reflexivity.
  intros r Hr. destruct Hr.
Defined.

(** A checkout of the filled cart whose order insert is not answered. *)
Lemma checkout_order_insert_fails_witness :
  let a := Checkout (Example.ok 0%N) Example.down (Example.ok 0%N)
                    (Example.ok 101%N) in
  let w' := after a Example.filled in
  toasts w' = toasts Example.filled ++ [toast_error "Failed to create order"]
  /\ database w' = database Example.filled
  /\ cartId (page w') = Some Example.first_cart
  /\ checkingOut (page w') = false
  /\ returns a Example.filled = true.
Proof.
  apply (@checkout_order_insert_fails
           Example.filled Example.alice Example.first_cart
           (Example.ok 0%N) Example.down (Example.ok 0%N) (Example.ok 101%N)
           (S754_finite false 8090998205547806 (-46)));
    first [evaluated | left; reflexivity].
Defined.

(** The reads of the opened page, answered and not. *)
Lemma empty_result_or_failed_read_witness :
  toasts (after (LoadItems Example.down) Example.opened)
  = toasts Example.opened ++ [toast_error "Failed to load items"]
  /\ (toasts (after (LoadItems (Example.ok 0%N)) Example.bare) = []
      /\ no_items_available (page (after (LoadItems (Example.ok 0%N))
                                         Example.bare)) = true)
  /\ toasts (after (ViewCart Example.down) Example.opened)
     = toasts Example.opened ++ [toast_error "Failed to load cart"]
  /\ toasts (after (ViewCart (Example.ok 0%N)) Example.opened)
     = toasts Example.opened ++ [toast_info "Your cart is empty"]
  /\ toasts (after (ViewOrderHistory Example.down) Example.opened)
     = toasts Example.opened ++ [toast_error "Failed to load order history"]
  /\ toasts (after (ViewOrderHistory (Example.ok 0%N)) Example.opened)
     = toasts Example.opened ++ [toast_info "No orders yet"]
  /\ toasts (after (Example.pay_unanswered 300%N Example.second_cart)
                   Example.opened)
     = toasts Example.opened ++ [toast_error "Cart is empty"]
  /\ toasts (after (Example.pay 300%N Example.second_cart) Example.opened)
     = toasts Example.opened ++ [toast_error "Cart is empty"].
Proof.
  destruct (empty_result_or_failed_read Example.opened)
    as (Hitems & Hcart & Horders & Hcheckout).
  refine (conj _ (conj _ (conj _ (conj _ (conj _ (conj _ (conj _ _))))))).
  - apply (proj1 (Hitems Example.down)). reflexivity.
  - apply (proj2 (proj1 (empty_result_or_failed_read Example.bare)
                        (Example.ok 0%N))); reflexivity.
  - apply (proj1 (Hcart Example.down Example.alice Example.first_cart
                        eq_refl eq_refl)). reflexivity.
  - apply (proj2 (Hcart (Example.ok 0%N) Example.alice Example.first_cart
                        eq_refl eq_refl)); reflexivity.
  - apply (proj1 (Horders Example.down Example.alice eq_refl)). reflexivity.
  - apply (proj2 (Horders (Example.ok 0%N) Example.alice eq_refl));
      reflexivity.
  - apply (Hcheckout Example.down (Example.ok 300%N) (Example.ok 0%N)
                     (Example.ok Example.second_cart)
                     Example.alice Example.first_cart eq_refl eq_refl).
    left. reflexivity.
  - apply (Hcheckout (Example.ok 0%N) (Example.ok 300%N) (Example.ok 0%N)
                     (Example.ok Example.second_cart)
                     Example.alice Example.first_cart eq_refl eq_refl).
    right. reflexivity.
Defined.

(** The first visit, with the lookup not answered. *)
Lemma failed_cart_lookup_still_inserts_witness :
  let w' := after (LoadOrCreateCart Example.down
                                    (Example.ok Example.first_cart))
                  Example.start in
  carts (database Example.start) = []
  /\ carts (database w')
     = [cart_of (Example.ok Example.first_cart) Example.alice]
  /\ toasts w' = []
  /\ cartId (page w') = Some Example.first_cart.
Proof.
  destruct (@failed_cart_lookup_still_inserts
              Example.start Example.alice Example.down
              (Example.ok Example.first_cart)
              (with_carts [cart_of (Example.ok Example.first_cart)
                                   Example.alice]
                          Example.shop_db)
              eq_refl eq_refl eq_refl eq_refl) as (Hd & Hc & Ht & Hi).
  refine (conj eq_refl (conj _ (conj Ht Hi))).
  exact (eq_trans (f_equal carts Hd) Hc).
Defined.

(** A signup with a username in the metadata, and one with an email
    only, which goes through on the seeded shop. *)
Lemma handle_new_user_username_witness :
  new_username Example.with_username = Some "cat"%string
  /\ new_username Example.by_email = Some "bob"%string
  /\ signup Example.by_email Example.shop_db
     = Some (with_profiles
               [{| profile_id := Example.alice; profile_username := "alice" |};
                {| profile_id := 4%N; profile_username := "bob" |}]
               (with_auth_users
                  (auth_users Example.shop_db ++ [Example.by_email])
                  Example.shop_db)).
Proof.
  split; [|split].
  - apply (proj1 (handle_new_user_username Example.with_username
                                           Example.shop_db)).
    reflexivity.
  - apply (proj1 (proj2 (handle_new_user_username Example.by_email
                                                  Example.shop_db))
             "bob"%string "example.com"%string); try reflexivity.
    intros c Hc. vm_compute in Hc.
    destruct Hc as [<-|[<-|[<-|[]]]]; discriminate.
  - apply (proj2 (proj2 (proj2 (proj2
             (handle_new_user_username Example.by_email Example.shop_db))))).
    exists "bob"%string. repeat split.
Defined.
(** * Further properties *)

(** ** Cart resolution *)

Lemma select_cart_ids_own u s d :
  select_cart_ids u u s d = map cart_id (carts_of u s d).
Proof.
  unfold select_cart_ids, carts_of. f_equal. apply filter_ext. intro c.
  unfold carts_policy. rewrite (N.eqb_sym u).
  now destruct (N.eqb (cart_user_id c) u).
Qed.

Lemma carts_of_In u s d r :
  In r (carts_of u s d) <->
  In r (carts d) /\ cart_user_id r = u /\ cart_status r = s.
Proof.
  unfold carts_of. rewrite filter_In, andb_true_iff, N.eqb_eq, String.eqb_eq.
  tauto.
Qed.

Lemma carts_of_single u s d r :
  carts_unique d -> In r (carts d) -> cart_user_id r = u ->
  cart_status r = s -> carts_of u s d = [r].
Proof.
  intros Hu Hin Hru Hrs.
  pose proof (@carts_unique_at_most_one d u s Hu) as Hle.
  assert (Hr : In r (carts_of u s d)) by (apply carts_of_In; auto).
  destruct (carts_of u s d) as [|x [|y t]]; simpl in *; [easy| |lia].
  destruct Hr as [->|[]]. reflexivity.
Qed.

(** X1.  When the user has an active cart and the lookup is answered,
    [loadOrCreateCart] adopts that cart and does nothing else: no
    statement is issued, no toast is shown. *)
Theorem loadOrCreateCart_adopts_existing w u r k1 k2 :
  user (page w) = Some u -> refused k1 = false ->
  carts_unique (database w) ->
  In r (carts (database w)) -> cart_user_id r = u ->
  cart_status r = "active"%string ->
  let w' := after (LoadOrCreateCart k1 k2) w in
  database w' = database w
  /\ cartId (page w') = Some (cart_id r)
  /\ toasts w' = toasts w
  /\ after (LoadOrCreateCart k1 k2) w' = w'.
Proof.
  intros Hu Hk1 Huniq Hin Hru Hrs.
  assert (Hsel : select_cart_ids u u "active" (database w) = [cart_id r]).
  { rewrite select_cart_ids_own.
    now rewrite (@carts_of_single u "active" (database w) r). }
  assert (H1 : after (LoadOrCreateCart k1 k2) w
               = snd (setCartId (Some (cart_id r)) w)).
  { handlers. rewrite Hu, Hk1. simpl. rewrite Hsel; simpl; rewrite ?Hu;
      reflexivity. }
  cbv zeta. rewrite H1. repeat split.
  handlers. simpl. rewrite Hu, Hk1. simpl. rewrite Hsel; simpl; rewrite ?Hu;
    reflexivity.
Qed.

(** X2.  Whatever the service answers, [loadOrCreateCart] either leaves
    the database and the current cart as they were, or leaves as current
    cart an active cart of the user. *)
Theorem loadOrCreateCart_resolves w u k1 k2 :
  user (page w) = Some u ->
  let w' := after (LoadOrCreateCart k1 k2) w in
  (database w' = database w /\ cartId (page w') = cartId (page w))
  \/ (exists c,
        cartId (page w') = Some c
        /\ In {| cart_id := c; cart_user_id := u; cart_status := "active" |}
              (carts (database w'))).
Proof.
  intros Hu. handlers. rewrite Hu. simpl.
  destruct (refused k1) eqn:Hk1; simpl.
  - destruct (refused k2); simpl; auto.
    destruct (insert_cart u _ (database w)) as [d'|] eqn:E; simpl; auto.
    right. eexists. split; [reflexivity|].
    apply insert_cart_inv in E as (-> & _). simpl.
    apply in_or_app. right. now left.
  - destruct (select_cart_ids u u "active" (database w)) as [|c [|c' t]] eqn:E;
      simpl; auto.
    + destruct (refused k2); simpl; auto.
      destruct (insert_cart u _ (database w)) as [d'|] eqn:E'; simpl; auto.
      right. eexists. split; [reflexivity|].
      apply insert_cart_inv in E' as (-> & _). simpl.
      apply in_or_app. right. now left.
    + right. exists c. split; [reflexivity|].
      rewrite select_cart_ids_own in E.
      destruct (carts_of u "active" (database w)) as [|x [|y t]] eqn:Ex;
        try discriminate.
      injection E as <-.
      assert (Hx : In x (carts_of u "active" (database w)))
        by (rewrite Ex; now left).
      apply carts_of_In in Hx as (Hx & Hxu & Hxs).
      destruct x as [xi xu xs]. simpl in *. now subst.
    + destruct (refused k2); simpl; auto.
      destruct (insert_cart u _ (database w)) as [d'|] eqn:E'; simpl; auto.
      right. eexists. split; [reflexivity|].
      apply insert_cart_inv in E' as (-> & _). simpl.
      apply in_or_app. right. now left.
Qed.

(** X3.  When the lookup yields no cart (none is active, or it is not
    answered) and the insert fails, [loadOrCreateCart] shows "Failed to
    create cart" and changes nothing else. *)
Theorem loadOrCreateCart_insert_fails w u k1 k2 :
  user (page w) = Some u ->
  refused k1 = true \/ carts_of u "active" (database w) = [] ->
  refused k2 = true \/ insert_cart u (cart_of k2 u) (database w) = None ->
  let w' := after (LoadOrCreateCart k1 k2) w in
  toasts w' = toasts w ++ [toast_error "Failed to create cart"]
  /\ database w' = database w
  /\ page w' = page w.
Proof.
  intros Hu Hlook Hins.
  assert (H : after (LoadOrCreateCart k1 k2) w
              = snd (show (toast_error "Failed to create cart") w)).
  { handlers. rewrite Hu. simpl.
    assert (Hdata : (if refused k1 then None
                     else data (maybeSingle
                                  (select_cart_ids u u "active" (database w))))
                    = None).
    { destruct (refused k1); [reflexivity|].
      destruct Hlook as [Hl|Hl]; [discriminate|].
      now rewrite select_cart_ids_own, Hl. }
    destruct (refused k1); simpl in *.
    - destruct Hins as [->|Hi]; [reflexivity|].
      unfold cart_of in Hi. rewrite Hi. now destruct (refused k2).
    - rewrite Hdata.
      destruct Hins as [->|Hi]; [reflexivity|].
      unfold cart_of in Hi. rewrite Hi. now destruct (refused k2). }
  cbv zeta. rewrite H. simpl. auto.
Qed.

(** ** What the handlers never do *)

(** X4.  The three reads write nothing: [viewCart] and [viewOrderHistory]
    leave the database and the page as they are, [loadItems] leaves the
    database and everything of the page but the listing. *)
Theorem reads_write_nothing w k :
  (database (after (ViewCart k) w) = database w
   /\ page (after (ViewCart k) w) = page w)
  /\ (database (after (ViewOrderHistory k) w) = database w
      /\ page (after (ViewOrderHistory k) w) = page w)
  /\ (database (after (LoadItems k) w) = database w
      /\ user (page (after (LoadItems k) w)) = user (page w)
      /\ cartId (page (after (LoadItems k) w)) = cartId (page w)
      /\ checkingOut (page (after (LoadItems k) w)) = checkingOut (page w)).
Proof.
  split; [|split]; handlers; run; repeat split; reflexivity.
Qed.

Lemma exec_tables s d d' :
  exec s d = Some d' ->
  auth_users d' = auth_users d /\ profiles d' = profiles d
  /\ items d' = items d
  /\ (exists l, orders d' = orders d ++ l)
  /\ (exists l, cart_items d' = cart_items d ++ l)
  /\ (exists l, map (fun c => (cart_id c, cart_user_id c)) (carts d')
                = map (fun c => (cart_id c, cart_user_id c)) (carts d) ++ l).
Proof.
  destruct s; simpl; intro H.
  - apply insert_cart_inv in H as (-> & _). simpl.
    repeat split; try (exists []; now rewrite app_nil_r).
    rewrite map_app. eauto.
  - apply update_cart_status_inv in H as (-> & _). simpl.
    repeat split; try (exists []; now rewrite app_nil_r).
    exists []. rewrite app_nil_r, map_map. apply map_ext. intro x.
    unfold set_status. now destruct (_ && _).
  - apply insert_cart_item_inv in H as (-> & _). simpl.
    repeat split; try (exists []; now rewrite app_nil_r). eauto.
  - apply insert_order_inv in H as ->. simpl.
    repeat split; try (exists []; now rewrite app_nil_r). eauto.
Qed.

Lemma writes_tables d d' :
  writes d d' ->
  auth_users d' = auth_users d /\ profiles d' = profiles d
  /\ items d' = items d
  /\ (exists l, orders d' = orders d ++ l)
  /\ (exists l, cart_items d' = cart_items d ++ l)
  /\ (exists l, map (fun c => (cart_id c, cart_user_id c)) (carts d')
                = map (fun c => (cart_id c, cart_user_id c)) (carts d) ++ l).
Proof.
  induction 1 as [d|d d1 d2 s _ IH Hs].
  - repeat split; try (exists []; now rewrite app_nil_r).
  - destruct IH as (Ha & Hp & Hi & [lo Ho] & [lc Hc] & [lk Hk]).
    apply exec_tables in Hs as (Ha' & Hp' & Hi' & [lo' Ho'] & [lc' Hc']
                                & [lk' Hk']).
    repeat split; try congruence.
    + exists (lo ++ lo'). now rewrite Ho', Ho, app_assoc.
    + exists (lc ++ lc'). now rewrite Hc', Hc, app_assoc.
    + exists (lk ++ lk'). now rewrite Hk', Hk, app_assoc.
Qed.

(** X5.  No handler touches [auth.users], [profiles] or [items], and none
    removes or changes a row of [orders] or [cart_items], or removes a
    cart or changes its owner: those tables only grow at their end. *)
Theorem handlers_only_append a w :
  let d := database w in
  let d' := database (after a w) in
  auth_users d' = auth_users d /\ profiles d' = profiles d
  /\ items d' = items d
  /\ (exists l, orders d' = orders d ++ l)
  /\ (exists l, cart_items d' = cart_items d ++ l)
  /\ (exists l, map (fun c => (cart_id c, cart_user_id c)) (carts d')
                = map (fun c => (cart_id c, cart_user_id c)) (carts d) ++ l).
Proof. apply writes_tables, after_writes. Qed.

(** ** Referential integrity *)

Lemma existsb_app_l (A : Type) (f : A -> bool) (l l' : list A) :
  existsb f l = true -> existsb f (l ++ l') = true.
Proof. intro H. now rewrite existsb_app, H. Qed.

Lemma cart_exists_mono c d d' l :
  map (fun c => (cart_id c, cart_user_id c)) (carts d')
  = map (fun c => (cart_id c, cart_user_id c)) (carts d) ++ l ->
  cart_exists c d = true -> cart_exists c d' = true.
Proof.
  unfold cart_exists. intros Hm H.
  apply existsb_exists in H as (r & Hr & Hc).
  assert (Hin : In (cart_id r, cart_user_id r)
                   (map (fun c => (cart_id c, cart_user_id c)) (carts d')))
    by (rewrite Hm; apply in_or_app; left;
        now apply (in_map (fun c => (cart_id c, cart_user_id c)))).
  apply in_map_iff in Hin as (r' & E & Hr'). injection E as E1 E2.
  apply existsb_exists. exists r'. split; [exact Hr'|]. now rewrite E1.
Qed.

Ltac refs_cases :=
  split; [|split];
  [intros x Hx|intros x Hx; split|intros x Hx; split].

Lemma exec_refs_ok s d d' : exec s d = Some d' -> refs_ok d -> refs_ok d'.
Proof.
  intros H (Hc & Hi & Ho).
  pose proof (exec_tables _ _ H) as (Ha & _ & Hit & _ & _ & [lk Hk]).
  assert (Hu : forall u, user_exists u d' = user_exists u d)
    by (intro u; unfold user_exists; now rewrite Ha).
  assert (Hie : forall i, item_exists i d' = item_exists i d)
    by (intro i; unfold item_exists; now rewrite Hit).
  assert (Hce : forall c, cart_exists c d = true -> cart_exists c d' = true)
    by (intros c; now apply cart_exists_mono with lk).
  destruct s; simpl in H.
  - apply insert_cart_inv in H as (E & _ & _ & Hux & _).
    refs_cases; rewrite ?Hu, ?Hie.
    + rewrite E in Hx. simpl in Hx. apply in_app_or in Hx as [Hx|[<-|[]]];
        auto.
    + apply Hce, Hi. now rewrite E in Hx.
    + apply Hi. now rewrite E in Hx.
    + apply Ho. now rewrite E in Hx.
    + apply Hce, Ho. now rewrite E in Hx.
  - apply update_cart_status_inv in H as (E & _).
    refs_cases; rewrite ?Hu, ?Hie.
    + rewrite E in Hx. simpl in Hx. apply in_map_iff in Hx as (y & <- & Hy).
      unfold set_status. destruct (_ && _); simpl; auto.
    + apply Hce, Hi. now rewrite E in Hx.
    + apply Hi. now rewrite E in Hx.
    + apply Ho. now rewrite E in Hx.
    + apply Hce, Ho. now rewrite E in Hx.
  - pose proof H as H'. apply insert_cart_item_inv in H as (E & _).
    unfold insert_cart_item in H'.
    destruct (cart_exists (ci_cart_id new) d) eqn:E1;
      [|now rewrite !andb_false_r, ?andb_false_l in H'].
    destruct (item_exists (ci_item_id new) d) eqn:E2;
      [|now rewrite !andb_false_r, ?andb_false_l in H'].
    refs_cases; rewrite ?Hu, ?Hie.
    + apply Hc. now rewrite E in Hx.
    + rewrite E in Hx. simpl in Hx. apply in_app_or in Hx as [Hx|[<-|[]]].
      * now apply Hce, Hi.
      * now apply Hce.
    + rewrite E in Hx. simpl in Hx. apply in_app_or in Hx as [Hx|[<-|[]]].
      * now apply Hi.
      * exact E2.
    + apply Ho. now rewrite E in Hx.
    + apply Hce, Ho. now rewrite E in Hx.
  - pose proof H as H'. apply insert_order_inv in H as E.
    unfold insert_order in H'.
    destruct (user_exists (order_user_id new) d) eqn:E1;
      [|now rewrite !andb_false_r, ?andb_false_l in H'].
    destruct (cart_exists (order_cart_id new) d) eqn:E2;
      [|now rewrite !andb_false_r in H'].
    refs_cases; rewrite ?Hu, ?Hie.
    + apply Hc. now rewrite E in Hx.
    + apply Hce, Hi. now rewrite E in Hx.
    + apply Hi. now rewrite E in Hx.
    + rewrite E in Hx. simpl in Hx. apply in_app_or in Hx as [Hx|[<-|[]]].
      * now apply Ho.
      * exact E1.
    + rewrite E in Hx. simpl in Hx. apply in_app_or in Hx as [Hx|[<-|[]]].
      * now apply Hce, Ho.
      * now apply Hce.
Qed.

Lemma signup_refs_ok new d d' :
  signup new d = Some d' -> refs_ok d -> refs_ok d'.
Proof.
  intros H (Hc & Hi & Ho).
  pose proof (signup_tables _ _ H) as (Ec & Ei & Eo).
  assert (Hit : items d' = items d /\ auth_users d' = auth_users d ++ [new]).
  { unfold signup, handle_new_user, insert_profile in H.
    destruct (user_exists (au_id new) d); [discriminate|].
    destruct (new_username new); [|discriminate].
    destruct (_ && _) in H; [|discriminate].
    injection H as <-. auto. }
  destruct Hit as [Hit Ha].
  assert (Hu : forall u, user_exists u d = true -> user_exists u d' = true).
  { intros u Hu. unfold user_exists in *. rewrite Ha.
    now apply existsb_app_l. }
  assert (Hce : forall c, cart_exists c d' = cart_exists c d)
    by (intro c; unfold cart_exists; now rewrite Ec).
  assert (Hie : forall i, item_exists i d' = item_exists i d)
    by (intro i; unfold item_exists; now rewrite Hit).
  refs_cases; rewrite ?Hce, ?Hie.
  - apply Hu, Hc. now rewrite Ec in Hx.
  - apply Hi. now rewrite Ei in Hx.
  - apply Hi. now rewrite Ei in Hx.
  - apply Hu, Ho. now rewrite Eo in Hx.
  - apply Ho. now rewrite Eo in Hx.
Qed.

(** X6.  In every reachable database the foreign keys hold (every cart
    has its user, every cart item its cart and its item, every order its
    user and its cart), no two carts share an id, and no two rows of
    [cart_items] share a (cart, item) pair. *)
Theorem reachable_keys d :
  reachable d ->
  refs_ok d
  /\ unique_by same_cart_id (carts d) = true
  /\ forall c i, List.length (rows_of_pair c i d) <= 1.
Proof.
  intro H. split; [|split].
  - induction H as [d Hc Hi Ho|d new d' _ IH Hs|d p ts a _ IH|d s d' _ IH Hs].
    + unfold refs_ok. rewrite Hc, Hi, Ho. refs_cases; destruct Hx.
    + eauto using signup_refs_ok.
    + pose proof (after_writes a {| database := d; page := p; toasts := ts |})
        as Hw.
      simpl in Hw. induction Hw; eauto using exec_refs_ok.
    + eauto using exec_refs_ok.
  - now apply reachable_cart_ids.
  - intros c i. apply cart_items_unique_at_most_one.
    now apply reachable_unique.
Qed.

(** ** A session writes its own rows only *)

Lemma writes_as_trans u d1 d2 d3 :
  writes_as u d1 d2 -> writes_as u d2 d3 -> writes_as u d1 d3.
Proof. intros H12 H23. induction H23; eauto using writes_as. Qed.

Lemma frames_as_ret (A : Type) u (a : A) : frames_as u (ret a).
Proof. intros w Hu. split; [apply writes_as_none|exact Hu]. Qed.

Lemma frames_as_throw (A : Type) u : frames_as u (throw A).
Proof. intros w Hu. split; [apply writes_as_none|exact Hu]. Qed.

Lemma frames_as_bind (A B : Type) u (m : async A) (k : A -> async B) :
  frames_as u m -> (forall a, frames_as u (k a)) -> frames_as u (bind m k).
Proof.
  intros Hm Hk w Hu. unfold bind. destruct (Hm w Hu) as [Hw Hu'].
  destruct (m w) as [[a|] w1]; simpl in *; [|auto].
  destruct (Hk a w1 Hu') as [Hw' Hu'']. split; [|exact Hu''].
  eapply writes_as_trans; eauto.
Qed.

Lemma frames_as_show u t : frames_as u (show t).
Proof. intros w Hu. split; [apply writes_as_none|exact Hu]. Qed.

Lemma frames_as_setItems u l : frames_as u (setItems l).
Proof. intros w Hu. split; [apply writes_as_none|exact Hu]. Qed.

Lemma frames_as_setCartId u c : frames_as u (setCartId c).
Proof. intros w Hu. split; [apply writes_as_none|exact Hu]. Qed.

Lemma frames_as_setAddingToCart u i : frames_as u (setAddingToCart i).
Proof. intros w Hu. split; [apply writes_as_none|exact Hu]. Qed.

Lemma frames_as_setCheckingOut u b : frames_as u (setCheckingOut b).
Proof. intros w Hu. split; [apply writes_as_none|exact Hu]. Qed.

Lemma frames_as_read (A : Type) u k (q : db -> reply A) :
  frames_as u (read k q).
Proof.
  intros w Hu. unfold read.
  destruct (refused k); (split; [apply writes_as_none|exact Hu]).
Qed.

Lemma frames_as_write (A : Type) u k s (row : A) :
  stmt_uid s = u -> frames_as u (write k (exec s) row).
Proof.
  intros Hs w Hu. unfold write.
  destruct (refused k); [split; [apply writes_as_none|exact Hu]|].
  destruct (exec s (database w)) eqn:E; simpl;
    (split; [|exact Hu]); [|apply writes_as_none].
  eapply writes_as_more; [apply writes_as_none|exact Hs|exact E].
Qed.

Ltac framing_as :=
  repeat first
    [ apply frames_as_ret | apply frames_as_throw | apply frames_as_show
    | apply frames_as_setItems | apply frames_as_setCartId
    | apply frames_as_setAddingToCart | apply frames_as_setCheckingOut
    | apply frames_as_read
    | apply (@frames_as_write _ _ _ (InsertCart _ _)); reflexivity
    | apply (@frames_as_write _ _ _ (UpdateCartStatus _ _ _)); reflexivity
    | apply (@frames_as_write _ _ _ (InsertCartItem _ _)); reflexivity
    | apply (@frames_as_write _ _ _ (InsertOrder _ _)); reflexivity
    | apply frames_as_bind; [|intro]
    | match goal with
      | |- frames_as _ (match ?x with _ => _ end) => destruct x
      end ].

Lemma frames_as_perform a u : frames_as u (perform a).
Proof.
  destruct a; simpl; intros w Hu.
  - revert w Hu. unfold loadItems. framing_as.
  - unfold loadOrCreateCart. rewrite Hu.
    revert w Hu. cbv zeta. framing_as.
  - unfold addToCart. rewrite Hu.
    destruct (cartId (page w)); [|split; [apply writes_as_none|exact Hu]].
    revert w Hu. framing_as.
  - unfold viewCart.
    destruct (cartId (page w)); [|split; [apply writes_as_none|exact Hu]].
    generalize (user (page w)). intro o. revert w Hu. framing_as.
  - unfold viewOrderHistory. rewrite Hu. revert w Hu. framing_as.
  - unfold checkout. rewrite Hu.
    destruct (cartId (page w)); [|split; [apply writes_as_none|exact Hu]].
    revert w Hu. cbv zeta. framing_as.
Qed.

Lemma owns_cart_mono u c d d' l :
  map (fun c => (cart_id c, cart_user_id c)) (carts d')
  = map (fun c => (cart_id c, cart_user_id c)) (carts d) ++ l ->
  owns_cart u c d = true -> owns_cart u c d' = true.
Proof.
  unfold owns_cart. intros Hm H.
  apply existsb_exists in H as (r & Hr & Hc).
  assert (Hin : In (cart_id r, cart_user_id r)
                   (map (fun c => (cart_id c, cart_user_id c)) (carts d')))
    by (rewrite Hm; apply in_or_app; left;
        now apply (in_map (fun c => (cart_id c, cart_user_id c)))).
  apply in_map_iff in Hin as (r' & E & Hr'). injection E as E1 E2.
  apply existsb_exists. exists r'. split; [exact Hr'|]. now rewrite E1, E2.
Qed.

Lemma others_set_status u c s l :
  others u (map (set_status u c s) l) = others u l.
Proof.
  unfold others. induction l as [|r t IH]; simpl; [reflexivity|].
  rewrite IH. unfold set_status, carts_policy.
  destruct (N.eqb (cart_id r) c); simpl; [|reflexivity].
  rewrite (N.eqb_sym u).
  destruct (N.eqb (cart_user_id r) u) eqn:E; simpl; now rewrite E.
Qed.

Lemma exec_own_rows s u d d' :
  stmt_uid s = u -> exec s d = Some d' ->
  others u (carts d') = others u (carts d)
  /\ filter (fun o => negb (N.eqb (order_user_id o) u)) (orders d')
     = filter (fun o => negb (N.eqb (order_user_id o) u)) (orders d)
  /\ forall r, In r (cart_items d') ->
               In r (cart_items d) \/ owns_cart u (ci_cart_id r) d' = true.
Proof.
  destruct s; simpl; intros <- H.
  - pose proof H as H'. apply insert_cart_inv in H as (-> & Hp & _). simpl.
    unfold carts_policy in Hp. unfold others.
    rewrite filter_app. simpl. rewrite N.eqb_sym, Hp. simpl.
    rewrite app_nil_r. auto.
  - apply update_cart_status_inv in H as (-> & _). simpl.
    rewrite others_set_status. auto.
  - pose proof H as H'. apply insert_cart_item_inv in H as (-> & _). simpl.
    repeat split. intros r Hr. apply in_app_or in Hr as [Hr|[<-|[]]]; auto.
    right. unfold insert_cart_item in H'.
    destruct (cart_items_policy uid d new) eqn:E; [exact E|discriminate].
  - pose proof H as H'. apply insert_order_inv in H as ->. simpl.
    rewrite filter_app. simpl.
    unfold insert_order, orders_policy in H'.
    destruct (N.eqb uid (order_user_id new)) eqn:E; [|discriminate].
    rewrite N.eqb_sym, E. simpl. rewrite app_nil_r. auto.
Qed.

Lemma writes_as_own_rows u d d' :
  writes_as u d d' ->
  others u (carts d') = others u (carts d)
  /\ filter (fun o => negb (N.eqb (order_user_id o) u)) (orders d')
     = filter (fun o => negb (N.eqb (order_user_id o) u)) (orders d)
  /\ forall r, In r (cart_items d') ->
               In r (cart_items d) \/ owns_cart u (ci_cart_id r) d' = true.
Proof.
  induction 1 as [d|d d1 d2 s _ IH Hs He]; [auto|].
  destruct IH as (Hc & Ho & Hi).
  pose proof (exec_tables _ _ He) as (_ & _ & _ & _ & _ & [l Hl]).
  apply (@exec_own_rows s u d1 d2 Hs) in He as (Hc' & Ho' & Hi').
  split; [congruence|]. split; [congruence|].
  intros r Hr. destruct (Hi' r Hr) as [H1|H1]; [|auto].
  destruct (Hi r H1) as [H2|H2]; [auto|].
  right. now apply owns_cart_mono with d1 l.
Qed.

(** X7.  Whatever a signed-in session does, the carts and the orders of
    every other user are exactly as before, and every row it adds to
    [cart_items] is in a cart it owns. *)
Theorem session_writes_own_rows a w u :
  user (page w) = Some u ->
  let d := database w in
  let d' := database (after a w) in
  others u (carts d') = others u (carts d)
  /\ filter (fun o => negb (N.eqb (order_user_id o) u)) (orders d')
     = filter (fun o => negb (N.eqb (order_user_id o) u)) (orders d)
  /\ forall r, In r (cart_items d') ->
               In r (cart_items d) \/ owns_cart u (ci_cart_id r) d' = true.
Proof.
  intro Hu. apply writes_as_own_rows. now apply frames_as_perform.
Qed.

(** ** A cart of somebody else *)

Lemma rows_of_cart_foreign u c d :
  owns_cart u c d = false -> rows_of_cart u c d = [].
Proof.
  intro Ho. unfold rows_of_cart.
  apply (filter_nil_weaken (fun _ => false)).
  - intros r Hr. apply andb_true_iff in Hr as [Hp Hc].
    apply N.eqb_eq in Hc. unfold cart_items_policy in Hp. rewrite Hc in Hp.
    unfold owns_cart in Ho. congruence.
  - induction (cart_items d); simpl; auto.
Qed.

Lemma insert_cart_item_foreign u new d :
  owns_cart u (ci_cart_id new) d = false -> insert_cart_item u new d = None.
Proof.
  intro Ho. unfold insert_cart_item, cart_items_policy.
  unfold owns_cart in Ho. now rewrite Ho.
Qed.

(** X8.  With a current cart the user does not own, the page reads and
    writes nothing of it: [viewCart] shows "Your cart is empty" whatever
    the cart holds, [checkout] shows "Cart is empty" and [addToCart]
    shows "Failed to add item to cart", both leaving the database as it
    was. *)
Theorem foreign_cart_is_closed w u c :
  user (page w) = Some u -> cartId (page w) = Some c ->
  owns_cart u c (database w) = false ->
  (forall k, refused k = false ->
     toasts (after (ViewCart k) w)
     = toasts w ++ [toast_info "Your cart is empty"])
  /\ (forall k1 k2 k3 k4,
        let w' := after (Checkout k1 k2 k3 k4) w in
        toasts w' = toasts w ++ [toast_error "Cart is empty"]
        /\ database w' = database w)
  /\ (forall i k1 k2,
        let w' := after (AddToCart i k1 k2) w in
        toasts w' = toasts w ++ [toast_error "Failed to add item to cart"]
        /\ database w' = database w).
Proof.
  intros Hu Hc Ho.
  pose proof (rows_of_cart_foreign _ _ _ Ho) as Hrows.
  split; [|split].
  - intros k Hk. handlers. rewrite Hu, Hc, Hk. simpl.
    unfold select_cart_names. now rewrite Hrows.
  - intros k1 k2 k3 k4. handlers. rewrite Hu, Hc. simpl.
    unfold select_cart_prices. rewrite Hrows.
    destruct (refused k1); simpl; auto.
  - intros i k1 k2. handlers. rewrite Hu, Hc. simpl.
    unfold select_cart_item_ids. rewrite Hrows. simpl.
    destruct (refused k1); simpl; (destruct (refused k2); simpl; [auto|]);
      rewrite insert_cart_item_foreign by exact Ho; simpl; auto.
Qed.

(** ** An item that is no longer listed *)

Lemma reduce_total_none l sum :
  reduce_total l sum = None <->
  exists r, In r l /\ PricedItem.items r = None.
Proof.
  revert sum. induction l as [|x t IH]; intro sum; unfold reduce_total;
    fold reduce_total.
  - split; [discriminate|]. intros (r & [] & _).
  - destruct (PricedItem.items x) eqn:E.
    + rewrite IH. split; intros (r & Hr & Hn); [exists r; simpl; auto|].
      destruct Hr as [<-|Hr]; [congruence|eauto].
    + split; [|reflexivity]. intros _. exists x. simpl. auto.
Qed.

Lemma item_names_none l :
  item_names l = None <-> exists r, In r l /\ CartItem.items r = None.
Proof.
  induction l as [|x t IH]; simpl.
  - split; [discriminate|]. intros (r & [] & _).
  - destruct (CartItem.items x) eqn:E.
    + destruct (item_names t) eqn:Et.
      * split; [discriminate|]. intros (r & [<-|Hr] & Hn); [congruence|].
        assert (H : Some l = None) by (apply IH; eauto). discriminate.
      * split; [|reflexivity]. intros _.
        destruct (proj1 IH eq_refl) as (r & Hr & Hn). eauto.
    + split; [|reflexivity]. intros _. exists x. auto.
Qed.

(** X9.  [checkout] throws exactly when its fetch is answered with a row
    whose item the policy of [items] hides (an item no longer [active]);
    it then has shown nothing and written nothing, and [checkingOut]
    stays [true], so the checkout button stays disabled.  [viewCart]
    throws on the same carts. *)
Theorem hidden_item_throws w u c k1 k2 k3 k4 :
  user (page w) = Some u -> cartId (page w) = Some c ->
  let hidden :=
    exists r, In r (rows_of_cart u c (database w))
              /\ visible_item (ci_item_id r) (database w) = None in
  let w' := after (Checkout k1 k2 k3 k4) w in
  (returns (Checkout k1 k2 k3 k4) w = false <-> refused k1 = false /\ hidden)
  /\ (refused k1 = false -> hidden ->
      toasts w' = toasts w /\ database w' = database w
      /\ checkingOut (page w') = true
      /\ returns (ViewCart k1) w = false
      /\ toasts (after (ViewCart k1) w) = toasts w).
Proof.
  intros Hu Hc hidden w'.
  assert (Hprice : hidden <->
            reduce_total (select_cart_prices u c (database w)) Number.zero
            = None).
  { rewrite reduce_total_none. unfold select_cart_prices, hidden.
    split.
    - intros (r & Hr & Hv). eexists. split; [apply in_map, Hr|].
      simpl. now rewrite Hv.
    - intros (x & Hx & Hn). apply in_map_iff in Hx as (r & <- & Hr).
      exists r. split; [exact Hr|]. simpl in Hn.
      now destruct (visible_item (ci_item_id r) (database w)). }
  assert (Hname : hidden ->
            item_names (select_cart_names u c (database w)) = None).
  { intros (r & Hr & Hv). apply item_names_none. unfold select_cart_names.
    eexists. split; [apply in_map, Hr|]. simpl. now rewrite Hv. }
  split.
  - subst w'. handlers. rewrite Hu, Hc. simpl.
    destruct (refused k1) eqn:Hk1; simpl.
    + split; [discriminate|]. now intros [? _].
    + destruct (select_cart_prices u c (database w)) as [|i l] eqn:Es; simpl.
      * split; [discriminate|]. intros [_ H%Hprice]. discriminate.
      * destruct (reduce_total (i :: l) Number.zero) eqn:Et; simpl.
        -- split; [|intros [_ H%Hprice]; discriminate].
           run; discriminate.
        -- split; [|reflexivity]. intros _. split; [reflexivity|].
           now apply Hprice.
  - intros Hk1 Hh. pose proof (proj1 Hprice Hh) as Ht.
    pose proof (Hname Hh) as Hn.
    subst w'. handlers. rewrite Hu, Hc, Hk1. simpl.
    destruct (select_cart_prices u c (database w)) as [|i l] eqn:Es;
      [discriminate|].
    rewrite Ht. simpl.
    destruct (select_cart_names u c (database w)) as [|x t] eqn:En.
    + destruct Hh as (r & Hr & _). unfold select_cart_names in En.
      destruct (rows_of_cart u c (database w)); [destruct Hr|discriminate].
    + rewrite Hn. simpl. auto.
Qed.

(** ** One handler after another *)

Lemma rows_of_cart_own u c d :
  owns_cart u c d = true ->
  rows_of_cart u c d = filter (fun r => N.eqb (ci_cart_id r) c) (cart_items d).
Proof.
  intro Ho. unfold rows_of_cart. apply filter_ext. intro r.
  destruct (N.eqb (ci_cart_id r) c) eqn:E; [|apply andb_false_r].
  apply N.eqb_eq in E. unfold cart_items_policy. rewrite E.
  unfold owns_cart in Ho. now rewrite Ho.
Qed.

Lemma rows_of_cart_snoc u c d new :
  rows_of_cart u c (with_cart_items (cart_items d ++ [new]) d)
  = rows_of_cart u c d
    ++ filter (fun r => cart_items_policy u d r && N.eqb (ci_cart_id r) c)
              [new].
Proof.
  unfold rows_of_cart. cbn [cart_items with_cart_items].
  now rewrite filter_app.
Qed.

Lemma visible_item_exists i d it :
  visible_item i d = Some it ->
  item_exists i d = true /\ item_id it = i /\ In it (items d).
Proof.
  unfold visible_item, item_exists. intro H.
  apply find_some in H as [Hin H]. apply andb_true_iff in H as [H _].
  split; [apply existsb_exists; eauto|]. split; [now apply N.eqb_eq|exact Hin].
Qed.

Lemma insert_cart_item_accepts u k c i d :
  owns_cart u c d = true -> rows_of_pair c i d = [] ->
  item_exists i d = true ->
  existsb (fun r => N.eqb (ci_id r) (uuid_v4 k)) (cart_items d) = false ->
  insert_cart_item u (cart_item_of k c i) d
  = Some (with_cart_items (cart_items d ++ [cart_item_of k c i]) d).
Proof.
  intros Ho Hr Hi Hpk.
  assert (Hfree : existsb (same_cart_item (cart_item_of k c i))
                          (cart_items d) = false).
  { destruct (existsb (same_cart_item (cart_item_of k c i)) (cart_items d))
      eqn:E; [|reflexivity].
    apply existsb_exists in E as (r & Hr1 & Hr2).
    assert (Hin : In r (rows_of_pair c i d)).
    { apply filter_In. split; [exact Hr1|].
      unfold same_cart_item in Hr2. simpl in Hr2.
      now rewrite (N.eqb_sym _ c), (N.eqb_sym _ i). }
    rewrite Hr in Hin. destruct Hin. }
  unfold insert_cart_item. rewrite Hfree. simpl.
  unfold cart_items_policy. simpl. unfold owns_cart in Ho. rewrite Ho.
  rewrite Hpk. pose proof (@owns_cart_exists u c d Ho) as Hex.
  unfold cart_exists in *. now rewrite Hex, Hi.
Qed.

(** The world [addToCart] leaves when the pair has no row and the insert
    goes through. *)
Lemma addToCart_adds w u c i k1 k2 :
  user (page w) = Some u -> cartId (page w) = Some c ->
  owns_cart u c (database w) = true ->
  rows_of_pair c i (database w) = [] ->
  item_exists i (database w) = true ->
  refused k2 = false ->
  existsb (fun r => N.eqb (ci_id r) (uuid_v4 k2)) (cart_items (database w))
  = false ->
  after (AddToCart i k1 k2) w
  = {| database := with_cart_items
                     (cart_items (database w) ++ [cart_item_of k2 c i])
                     (database w);
       page := {| user := Some u; items_state := items_state (page w);
                  cartId := Some c; addingToCart := None;
                  checkingOut := checkingOut (page w) |};
       toasts := toasts w ++ [toast_success "Added to cart!"] |}.
Proof.
  intros Hu Hc Ho Hr Hi Hk2 Hpk.
  pose proof (@insert_cart_item_accepts u k2 c i (database w) Ho Hr Hi Hpk)
    as Hins.
  unfold cart_item_of in Hins.
  handlers. rewrite Hu, Hc. simpl.
  destruct (refused k1); simpl;
    rewrite ?(@select_ids_none u c i (database w) Hr), ?Hk2; simpl;
    rewrite Hins; reflexivity.
Qed.

(** X10.  After an item the shop lists is added to the user's empty
    cart, [viewCart] shows exactly that item's name. *)
Theorem viewCart_after_addToCart w u c i it k1 k2 k :
  user (page w) = Some u -> cartId (page w) = Some c ->
  owns_cart u c (database w) = true ->
  (forall r, In r (cart_items (database w)) -> ci_cart_id r <> c) ->
  visible_item i (database w) = Some it ->
  refused k2 = false ->
  existsb (fun r => N.eqb (ci_id r) (uuid_v4 k2)) (cart_items (database w))
  = false ->
  refused k = false ->
  toasts (after (ViewCart k) (after (AddToCart i k1 k2) w))
  = toasts w ++ [toast_success "Added to cart!";
                 toast_info ("Cart Items: " ++ item_name it)].
Proof.
  intros Hu Hc Ho Hempty Hv Hk2 Hpk Hk.
  pose proof (@visible_item_exists i (database w) it Hv) as (Hi & _ & _).
  assert (Hrows : rows_of_cart u c (database w) = [])
    by now apply rows_of_cart_none.
  assert (Hpair : rows_of_pair c i (database w) = []).
  { rewrite rows_of_cart_own in Hrows by exact Ho. unfold rows_of_pair.
    apply (filter_nil_weaken (fun r => N.eqb (ci_cart_id r) c));
      [|exact Hrows].
    intros r Hr. now apply andb_true_iff in Hr as [Hr _]. }
  rewrite (@addToCart_adds w u c i k1 k2 Hu Hc Ho Hpair Hi Hk2 Hpk).
  handlers. simpl. rewrite Hk. simpl.
  unfold select_cart_names. rewrite rows_of_cart_snoc, Hrows. simpl.
  unfold cart_items_policy. simpl. unfold owns_cart in Ho.
  rewrite Ho, N.eqb_refl. simpl.
  change (visible_item i (with_cart_items _ (database w)))
    with (visible_item i (database w)).
  rewrite Hv. simpl. now rewrite <- app_assoc.
Qed.

(** The world [checkout] leaves, up to the carts, when the order goes
    through. *)
Lemma checkout_inserts_order w u c k1 k2 k3 k4 total d1 :
  user (page w) = Some u -> cartId (page w) = Some c ->
  refused k1 = false ->
  select_cart_prices u c (database w) <> [] ->
  reduce_total (select_cart_prices u c (database w)) Number.zero
  = Some total ->
  refused k2 = false ->
  insert_order u (order_of k2 u c total) (database w) = Some d1 ->
  let w' := after (Checkout k1 k2 k3 k4) w in
  toasts w' = toasts w ++ [toast_success "Order successful!"]
  /\ orders (database w') = orders (database w) ++ [order_of k2 u c total]
  /\ cart_items (database w') = cart_items (database w)
  /\ user (page w') = Some u
  /\ checkingOut (page w') = false
  /\ returns (Checkout k1 k2 k3 k4) w = true.
Proof.
  intros Hu Hc Hk1 Hrows Ht Hk2 Hins.
  handlers. rewrite Hu, Hc, Hk1. simpl.
  destruct (select_cart_prices u c (database w)) as [|i l] eqn:E;
    [congruence|].
  rewrite Ht, Hk2. unfold order_of in Hins. simpl. rewrite Hins. simpl.
  apply insert_order_inv in Hins. subst d1.
  run;
    repeat match goal with
      | H : insert_cart _ _ _ = Some _ |- _ =>
          apply insert_cart_inv in H; destruct H as [-> _]
      | H : update_cart_status _ _ _ _ = Some _ |- _ =>
          apply update_cart_status_inv in H; destruct H as [-> _]
      end; simpl; auto 10.
Qed.

Lemma select_orders_snoc u d d' o :
  orders d' = orders d ++ [o] -> order_user_id o = u ->
  select_orders u u d'
  = {| Order.id := order_id o;
       Order.total := Column.read_back (order_total o) |}
      :: select_orders u u d.
Proof.
  intros Ho Hu. unfold select_orders.
  rewrite Ho, filter_app, map_app, rev_app_distr.
  simpl. unfold orders_policy. rewrite Hu, N.eqb_refl. reflexivity.
Qed.

(** X11.  After a checkout whose order goes through, the order history
    lists that order first, followed by the user's earlier orders in the
    order they were listed before. *)
Theorem viewOrderHistory_after_checkout w u c k1 k2 k3 k4 total d1 k :
  user (page w) = Some u -> cartId (page w) = Some c ->
  refused k1 = false ->
  select_cart_prices u c (database w) <> [] ->
  reduce_total (select_cart_prices u c (database w)) Number.zero
  = Some total ->
  refused k2 = false ->
  insert_order u (order_of k2 u c total) (database w) = Some d1 ->
  refused k = false ->
  let w' := after (Checkout k1 k2 k3 k4) w in
  exists lines,
    toasts (after (ViewOrderHistory k) w')
    = toasts w' ++ [toast_order_history lines]
    /\ map fst lines
       = uuid_v4 k2 :: map Order.id (select_orders u u (database w)).
Proof.
  intros Hu Hc Hk1 Hrows Ht Hk2 Hins Hk w'.
  destruct (@checkout_inserts_order w u c k1 k2 k3 k4 total d1)
    as (_ & Ho & _ & Hu' & _); auto.
  fold w' in Ho, Hu'. eexists. split.
  - handlers. rewrite Hu', Hk. simpl.
    rewrite (@select_orders_snoc u (database w) (database w')
               (order_of k2 u c total) Ho eq_refl).
    reflexivity.
  - simpl. now rewrite map_map.
Qed.

(** X12.  Adding an item that is not in [items] fails on the foreign key:
    [addToCart] shows "Failed to add item to cart" and the database is as
    before. *)
Theorem addToCart_unknown_item w u c i k1 k2 :
  user (page w) = Some u -> cartId (page w) = Some c ->
  refs_ok (database w) ->
  item_exists i (database w) = false ->
  let w' := after (AddToCart i k1 k2) w in
  toasts w' = toasts w ++ [toast_error "Failed to add item to cart"]
  /\ database w' = database w.
Proof.
  intros Hu Hc (_ & Hrefs & _) Hi.
  assert (Hpair : rows_of_pair c i (database w) = []).
  { destruct (rows_of_pair c i (database w)) as [|r t] eqn:E; [reflexivity|].
    assert (Hr : In r (rows_of_pair c i (database w))) by (rewrite E; now left).
    apply filter_In in Hr as [Hr H]. apply andb_true_iff in H as [_ H].
    apply N.eqb_eq in H. destruct (Hrefs r Hr) as [_ Hex]. congruence. }
  assert (Hins : forall new, ci_item_id new = i ->
                   insert_cart_item u new (database w) = None).
  { intros new <-. unfold insert_cart_item. rewrite Hi.
    now rewrite !andb_false_r. }
  handlers. rewrite Hu, Hc. simpl.
  destruct (refused k1); simpl;
    rewrite ?(@select_ids_none u c i (database w) Hpair); simpl;
    (destruct (refused k2); simpl; [auto|]);
    rewrite Hins by reflexivity; simpl; auto.
Qed.

(** ** The cart that cannot be closed *)

(** The world a second or later [checkout] leaves. *)
Lemma later_checkout_world w u c c0 k1 k2 k3 k4 total :
  user (page w) = Some u -> cartId (page w) = Some c ->
  In {| cart_id := c; cart_user_id := u; cart_status := "active" |}
     (carts (database w)) ->
  In c0 (carts (database w)) -> cart_user_id c0 = u ->
  cart_status c0 = "checked_out"%string -> cart_id c0 <> c ->
  refused k1 = false ->
  select_cart_prices u c (database w) <> [] ->
  reduce_total (select_cart_prices u c (database w)) Number.zero
  = Some total ->
  refused k2 = false ->
  insert_order u (order_of k2 u c total) (database w) <> None ->
  after (Checkout k1 k2 k3 k4) w
  = {| database := with_orders
                     (orders (database w) ++ [order_of k2 u c total])
                     (database w);
       page := {| user := Some u; items_state := items_state (page w);
                  cartId := Some c; addingToCart := addingToCart (page w);
                  checkingOut := false |};
       toasts := toasts w ++ [toast_success "Order successful!"] |}.
Proof.
  intros Hu Hc Hact Hin Hcu Hcs Hne Hk1 Hrows Ht Hk2 Hins.
  handlers. rewrite Hu, Hc, Hk1. simpl.
  destruct (select_cart_prices u c (database w)) as [|i l] eqn:E;
    [congruence|].
  rewrite Ht, Hk2. unfold order_of in Hins. simpl.
  destruct (insert_order u _ (database w)) as [d1|] eqn:E1; [|congruence].
  apply insert_order_inv in E1. subst d1. simpl.
  set (d1 := with_orders _ (database w)).
  assert (Hact1 : In {| cart_id := c; cart_user_id := u;
                        cart_status := "active" |} (carts d1)) by exact Hact.
  assert (Hnew : forall d, carts d = carts d1 ->
            insert_cart u {| cart_id := uuid_v4 k4; cart_user_id := u;
                             cart_status := "active" |} d = None).
  { intros d Hd. apply insert_cart_blocked
      with {| cart_id := c; cart_user_id := u; cart_status := "active" |};
      [rewrite Hd; exact Hact1|reflexivity|reflexivity]. }
  destruct (refused k3); simpl.
  - destruct (refused k4); simpl; [reflexivity|].
    rewrite Hnew by reflexivity. reflexivity.
  - destruct (update_cart_status u c "checked_out" d1) as [d2|] eqn:E2; simpl.
    + pose proof (update_cart_status_inv _ _ _ _ E2) as [Hd2 _].
      apply (@update_cart_status_blocked _ _ _ _ _ c0) in E2; auto.
      assert (Ed : d2 = d1).
      { rewrite Hd2 in E2.
        change (map (set_status u c "checked_out") (carts d1) = carts d1)
          in E2.
        rewrite Hd2. unfold with_carts. rewrite E2. reflexivity. }
      clear Hd2 E2. rewrite Ed. clear Ed d2.
      destruct (refused k4); simpl; [reflexivity|].
      rewrite Hnew by reflexivity. reflexivity.
    + destruct (refused k4); simpl; [reflexivity|].
      rewrite Hnew by reflexivity. reflexivity.
Qed.

Lemma insert_order_accepts uid new d :
  insert_order uid new d <> None <->
  orders_policy uid new = true
  /\ existsb (fun o => N.eqb (order_id o) (order_id new)) (orders d) = false
  /\ user_exists (order_user_id new) d = true
  /\ cart_exists (order_cart_id new) d = true.
Proof.
  unfold insert_order.
  destruct (orders_policy uid new),
           (existsb (fun o => N.eqb (order_id o) (order_id new)) (orders d)),
           (user_exists (order_user_id new) d),
           (cart_exists (order_cart_id new) d); simpl;
    split; try tauto; try discriminate; intros (? & ? & ? & ?); discriminate.
Qed.

(** X13.  Once the user has a checked-out cart, the current cart is
    never emptied or replaced: a checkout that succeeds leaves the rows
    [checkout] fetches as they were, so the next one orders the same rows
    again, for the same total. *)
Theorem later_checkouts_repeat_the_order
        w u c c0 k1 k2 k3 k4 k1' k2' k3' k4' total :
  user (page w) = Some u -> cartId (page w) = Some c ->
  In {| cart_id := c; cart_user_id := u; cart_status := "active" |}
     (carts (database w)) ->
  In c0 (carts (database w)) -> cart_user_id c0 = u ->
  cart_status c0 = "checked_out"%string -> cart_id c0 <> c ->
  refused k1 = false -> refused k1' = false ->
  select_cart_prices u c (database w) <> [] ->
  reduce_total (select_cart_prices u c (database w)) Number.zero
  = Some total ->
  refused k2 = false -> refused k2' = false ->
  insert_order u (order_of k2 u c total) (database w) <> None ->
  uuid_v4 k2' <> uuid_v4 k2 ->
  existsb (fun o => N.eqb (order_id o) (uuid_v4 k2')) (orders (database w))
  = false ->
  let w1 := after (Checkout k1 k2 k3 k4) w in
  let w2 := after (Checkout k1' k2' k3' k4') w1 in
  select_cart_prices u c (database w1) = select_cart_prices u c (database w)
  /\ orders (database w2)
     = orders (database w)
       ++ [order_of k2 u c total; order_of k2' u c total]
  /\ carts (database w2) = carts (database w)
  /\ cart_items (database w2) = cart_items (database w)
  /\ cartId (page w2) = Some c.
Proof.
  intros Hu Hc Hact Hin Hcu Hcs Hne Hk1 Hk1' Hrows Ht Hk2 Hk2' Hins Hid Hpk
         w1 w2.
  assert (E1 : w1 = _) by (apply (@later_checkout_world
                                    w u c c0 k1 k2 k3 k4 total); auto).
  assert (Hins' : insert_order u (order_of k2' u c total) (database w1)
                  <> None).
  { apply insert_order_accepts in Hins as (Hp & _ & Hux & Hcx).
    apply insert_order_accepts. rewrite E1.
    cbn [database orders with_orders order_of order_id order_user_id
         order_cart_id] in *.
    repeat split; try assumption.
    rewrite existsb_app, Hpk. simpl.
    apply N.eqb_neq in Hid. now rewrite N.eqb_sym, Hid. }
  assert (Hsame : select_cart_prices u c (database w1)
                  = select_cart_prices u c (database w))
    by (rewrite E1; reflexivity).
  pose proof (@later_checkout_world w1 u c c0 k1' k2' k3' k4' total) as E2.
  repeat match type of E2 with
         | ?A -> _ =>
             let H := fresh in
             assert (H : A)
               by first [ assumption
                        | rewrite Hsame; assumption
                        | rewrite E1; simpl; assumption
                        | rewrite E1; reflexivity ];
             specialize (E2 H); clear H
         end.
  fold w2 in E2.
  split; [exact Hsame|]. rewrite E2. simpl. rewrite E1. simpl.
  rewrite <- app_assoc. auto.
Qed.

(** ** The signup hook and the other tables *)

(** X14.  [split_part_1 sep s] has no [sep] in it, and [s] is either it
    or it followed by [sep] and a rest. *)
Theorem split_part_1_spec sep s :
  ~ In sep (list_ascii_of_string (split_part_1 sep s))
  /\ (s = split_part_1 sep s
      \/ exists rest, s = (split_part_1 sep s ++ String sep rest)%string).
Proof.
  induction s as [|c t [IH1 IH2]]; simpl.
  - split; [tauto|auto].
  - destruct (Ascii.eqb_spec c sep) as [->|Hne]; simpl.
    + split; [tauto|]. right. now exists t.
    + split; [intros [H|H]; [now apply Hne|now apply IH1]|].
      destruct IH2 as [IH2|[rest IH2]].
      * left. now rewrite <- IH2.
      * right. exists rest. now rewrite <- IH2.
Qed.

Lemma signup_inv new d d' :
  signup new d = Some d' ->
  exists n,
    new_username new = Some n
    /\ d' = with_profiles
              (profiles d ++ [{| profile_id := au_id new;
                                 profile_username := n |}])
              (with_auth_users (auth_users d ++ [new]) d)
    /\ user_exists (au_id new) d = false
    /\ existsb (fun p => N.eqb (profile_id p) (au_id new)) (profiles d)
       = false
    /\ existsb (fun p => String.eqb (profile_username p) n) (profiles d)
       = false.
Proof.
  unfold signup, handle_new_user, insert_profile. intro H.
  destruct (user_exists (au_id new) d) eqn:Eu; [discriminate|].
  destruct (new_username new) as [n|]; [|discriminate].
  cbn [profiles with_auth_users] in H.
  destruct (existsb (fun p => N.eqb (profile_id p) (au_id new)) (profiles d))
    eqn:E1; [discriminate|].
  destruct (existsb (fun p => String.eqb (profile_username p) n) (profiles d))
    eqn:E2; [now rewrite andb_false_r in H|].
  destruct (_ && _) in H; [|discriminate].
  injection H as <-. exists n. auto.
Qed.

(** X15.  A signup that goes through adds the identity and one profile
    with its derived username, and nothing else; after it, a signup of
    the same identity, or of any identity deriving the same username
    (the same text before the [@], say), is refused. *)
Theorem signup_adds_user_and_profile new d d' :
  signup new d = Some d' ->
  (exists n,
     new_username new = Some n
     /\ auth_users d' = auth_users d ++ [new]
     /\ profiles d' = profiles d ++ [{| profile_id := au_id new;
                                        profile_username := n |}])
  /\ items d' = items d /\ carts d' = carts d
  /\ cart_items d' = cart_items d /\ orders d' = orders d
  /\ signup new d' = None
  /\ forall other, new_username other = new_username new ->
                   signup other d' = None.
Proof.
  intro H. apply signup_inv in H as (n & Hn & -> & Hu & Hp & Hf).
  split; [eauto|]. repeat split.
  - unfold signup, user_exists. simpl. rewrite existsb_app. simpl.
    now rewrite N.eqb_refl, orb_true_r.
  - intros other Ho. unfold signup.
    destruct (user_exists (au_id other) _); [reflexivity|].
    unfold handle_new_user, insert_profile. rewrite Ho, Hn.
    cbn [profiles with_profiles with_auth_users].
    rewrite (existsb_app (fun p => String.eqb (profile_username p) n)).
    cbn [existsb profile_username].
    rewrite String.eqb_refl, !orb_true_r. cbn [negb].
    now rewrite andb_false_r.
Qed.

Lemma existsb_pointwise (A : Type) (f g : A -> bool) (l : list A) :
  (forall x, f x = g x) -> existsb f l = existsb g l.
Proof.
  intro H. induction l as [|x t IH]; simpl; [reflexivity|].
  now rewrite H, IH.
Qed.

(** X16.  Signups and handlers keep [profiles] well-formed: no two
    profiles share an id or a username, and each has its identity. *)
Theorem profiles_stay_well_formed d :
  profiles_ok d ->
  (forall new d', signup new d = Some d' -> profiles_ok d')
  /\ (forall a p ts,
        profiles_ok (database (after a {| database := d; page := p;
                                          toasts := ts |}))).
Proof.
  intros (Hid & Hname & Hfk). split.
  - intros new d' H. apply signup_inv in H as (n & Hn & -> & Hu & Hp & Hf).
    unfold profiles_ok. simpl. split; [|split].
    + apply unique_by_snoc; auto.
      * intros a b. apply N.eqb_sym.
      * simpl. rewrite <- Hp. apply existsb_pointwise.
        intro p. apply N.eqb_sym.
    + apply unique_by_snoc; auto.
      * intros a b. apply String.eqb_sym.
      * simpl. rewrite <- Hf. apply existsb_pointwise.
        intro p. apply String.eqb_sym.
    + intros p Hin. unfold user_exists. simpl. rewrite existsb_app.
      apply in_app_or in Hin as [Hin|[<-|[]]].
      * apply Hfk in Hin. unfold user_exists in Hin. now rewrite Hin.
      * simpl. now rewrite N.eqb_refl, orb_true_r.
  - intros a p ts.
    pose proof (writes_tables
                  (@after_writes
                     a {| database := d; page := p; toasts := ts |}))
      as (Ha & Hp & _).
    simpl in Ha, Hp. unfold profiles_ok, user_exists.
    rewrite Ha, Hp. auto.
Qed.

(** ** When the next cart cannot be created *)

(** X17.  When the first checkout goes through but the insert of the next
    cart is not answered, [checkout] still announces success: the cart is
    closed, the user has no active cart, and the closed cart stays the
    current one, still owned, so later [addToCart] calls go into it. *)
Theorem checkout_without_next_cart w u c k1 k2 k3 k4 total :
  user (page w) = Some u -> cartId (page w) = Some c ->
  carts_unique (database w) ->
  unique_by same_cart_id (carts (database w)) = true ->
  In {| cart_id := c; cart_user_id := u; cart_status := "active" |}
     (carts (database w)) ->
  carts_of u "checked_out" (database w) = [] ->
  refused k1 = false -> refused k2 = false -> refused k3 = false ->
  refused k4 = true ->
  select_cart_prices u c (database w) <> [] ->
  reduce_total (select_cart_prices u c (database w)) Number.zero
  = Some total ->
  insert_order u (order_of k2 u c total) (database w) <> None ->
  let w' := after (Checkout k1 k2 k3 k4) w in
  toasts w' = toasts w ++ [toast_success "Order successful!"]
  /\ In {| cart_id := c; cart_user_id := u; cart_status := "checked_out" |}
        (carts (database w'))
  /\ carts_of u "active" (database w') = []
  /\ cartId (page w') = Some c
  /\ owns_cart u c (database w') = true.
Proof.
  intros Hu Hc Huniq Hpk Hact Hnone Hk1 Hk2 Hk3 Hk4 Hrows Ht Hins.
  set (f := set_status u c "checked_out").
  assert (Hupd : forall d1, carts d1 = carts (database w) ->
            update_cart_status u c "checked_out" d1
            = Some (with_carts (map f (carts (database w))) d1)).
  { intros d1 Hd1. unfold update_cart_status. rewrite Hd1. fold f.
    unfold f. rewrite update_keeps_unique; auto.
    intros r Hr Hru Hrs.
    assert (Hin : In r (carts_of u "checked_out" (database w))).
    { apply filter_In. split; [exact Hr|].
      now rewrite Hru, Hrs, N.eqb_refl, String.eqb_refl. }
    rewrite Hnone in Hin. destruct Hin. }
  assert (Hfree : existsb (same_user_status (cart_of k4 u))
                          (map f (carts (database w))) = false).
  { rewrite <- (@no_active_after_update u c "checked_out"
                  (carts (database w))); auto; discriminate. }
  assert (Hclosed : In {| cart_id := c; cart_user_id := u;
                          cart_status := "checked_out" |}
                       (map f (carts (database w)))).
  { apply in_map_iff.
    exists {| cart_id := c; cart_user_id := u; cart_status := "active" |}.
    split; [|exact Hact].
    unfold f, set_status, carts_policy. cbn [cart_id cart_user_id].
    now rewrite !N.eqb_refl. }
  handlers. rewrite Hu, Hc, Hk1. simpl.
  destruct (select_cart_prices u c (database w)) as [|i l] eqn:E;
    [congruence|].
  rewrite Ht, Hk2. unfold order_of in Hins. simpl.
  destruct (insert_order u _ (database w)) as [d1|] eqn:E1; [|congruence].
  apply insert_order_inv in E1. simpl.
  rewrite Hk3, Hupd by (subst d1; reflexivity). simpl. rewrite Hk4.
  subst d1. simpl. repeat split; auto.
  - unfold carts_of. simpl. apply existsb_false_filter.
    apply existsb_ext_false with (f := same_user_status (cart_of k4 u));
      [|exact Hfree].
    intros x Hx. unfold same_user_status. simpl.
    apply andb_true_iff in Hx as [Hx1 Hx2].
    apply N.eqb_eq in Hx1. apply String.eqb_eq in Hx2.
    now rewrite Hx1, Hx2, N.eqb_refl.
  - unfold owns_cart. simpl. apply existsb_exists. eexists.
    split; [exact Hclosed|]. simpl. now rewrite !N.eqb_refl.
Qed.

(** ** The two loads of the mount effect *)

(** X18.  [loadItems] and [loadOrCreateCart], which the mount effect
    starts one after the other without awaiting them, do not interfere:
    run in the other order they leave the same database and the same
    page, with the same toasts up to their order. *)
Theorem mount_loads_commute w k k1 k2 u :
  user (page w) = Some u ->
  let a := mount k k1 k2 w in
  let b := after (LoadItems k) (after (LoadOrCreateCart k1 k2) w) in
  database a = database b /\ page a = page b
  /\ Permutation (toasts a) (toasts b).
Proof.
  intro Hu. cbv zeta. unfold mount. rewrite Hu.
  split; [|split]; handlers; simpl; rewrite Hu; simpl.
  - destruct (refused k); simpl; rewrite ?Hu; run; rewrite ?Hu;
      try match goal with
          | H : insert_cart _ _ _ = Some _ |- _ =>
              apply insert_cart_inv in H; destruct H as [-> _]
          end;
      reflexivity.
  - destruct (refused k); simpl; rewrite ?Hu; run; rewrite ?Hu;
      try match goal with
          | H : insert_cart _ _ _ = Some _ |- _ =>
              apply insert_cart_inv in H; destruct H as [-> _]
          end;
      reflexivity.
  - destruct (refused k); simpl; rewrite ?Hu; run; rewrite ?Hu;
      try match goal with
          | H : insert_cart _ _ _ = Some _ |- _ =>
              apply insert_cart_inv in H; destruct H as [-> _]
          end;
      try apply Permutation_refl;
      rewrite <- ?app_assoc; apply Permutation_app_head; simpl;
      apply perm_swap.
Qed.

(** ** The further properties on the example session *)

(** Opening the page again finds the first cart. *)
Lemma loadOrCreateCart_adopts_existing_witness :
  let w' := after (LoadOrCreateCart (Example.ok 0%N) (Example.ok 999%N))
                  Example.opened in
  database w' = database Example.opened
  /\ cartId (page w') = Some Example.first_cart
  /\ toasts w' = toasts Example.opened
  /\ after (LoadOrCreateCart (Example.ok 0%N) (Example.ok 999%N)) w' = w'.
Proof.
  apply (@loadOrCreateCart_adopts_existing
           Example.opened Example.alice
           {| cart_id := Example.first_cart; cart_user_id := Example.alice;
              cart_status := "active" |}
           (Example.ok 0%N) (Example.ok 999%N)); evaluated.
Defined.

(** The first visit. *)
Lemma loadOrCreateCart_resolves_witness :
  let w' := after (LoadOrCreateCart (Example.ok 0%N)
                                    (Example.ok Example.first_cart))
                  Example.start in
  (database w' = database Example.start
   /\ cartId (page w') = cartId (page Example.start))
  \/ (exists c,
        cartId (page w') = Some c
        /\ In {| cart_id := c; cart_user_id := Example.alice;
                 cart_status := "active" |} (carts (database w'))).
Proof.
  apply (@loadOrCreateCart_resolves Example.start Example.alice).
  reflexivity.
Defined.

(** The first visit, with no call answered. *)
Lemma loadOrCreateCart_insert_fails_witness :
  let w' := after (LoadOrCreateCart Example.down Example.down)
                  Example.start in
  toasts w' = toasts Example.start ++ [toast_error "Failed to create cart"]
  /\ database w' = database Example.start
  /\ page w' = page Example.start.
Proof.
  apply (@loadOrCreateCart_insert_fails
           Example.start Example.alice Example.down Example.down);
    first [reflexivity | left; reflexivity].
Defined.

(** The database of the second visit. *)
Lemma reachable_keys_witness :
  refs_ok (database Example.second_visit)
  /\ unique_by same_cart_id (carts (database Example.second_visit)) = true
  /\ forall c i,
       List.length (rows_of_pair c i (database Example.second_visit)) <= 1.
Proof. apply reachable_keys. exact second_visit_reachable. Defined.

(** Alice checks out beside Bob's cart. *)
Lemma session_writes_own_rows_witness :
  others Example.alice
         (carts (database (after (Example.pay 300%N Example.second_cart)
                                 Scene.shared)))
  = [{| cart_id := 150%N; cart_user_id := Scene.bob;
        cart_status := "active" |}].
Proof.
  rewrite (proj1 (@session_writes_own_rows
                    (Example.pay 300%N Example.second_cart)
                    Scene.shared Example.alice eq_refl)).
  reflexivity.
Defined.

(** Bob's page on Alice's filled cart. *)
Lemma foreign_cart_is_closed_witness :
  toasts (after (ViewCart (Example.ok 0%N)) Scene.intruder)
  = [toast_info "Your cart is empty"]
  /\ database (after (Example.pay 300%N Example.second_cart) Scene.intruder)
     = database Scene.intruder
  /\ database (after (AddToCart Example.yoga_mat (Example.ok 0%N)
                                (Example.ok 205%N)) Scene.intruder)
     = database Scene.intruder.
Proof.
  destruct (@foreign_cart_is_closed
              Scene.intruder Scene.bob Example.first_cart
              eq_refl eq_refl eq_refl) as (Hv & Hc & Ha).
  split; [|split].
  - apply (Hv (Example.ok 0%N)). reflexivity.
  - apply (Hc (Example.ok 0%N) (Example.ok 300%N) (Example.ok 0%N)
              (Example.ok Example.second_cart)).
  - apply (Ha Example.yoga_mat (Example.ok 0%N) (Example.ok 205%N)).
Defined.

(** Alice's checkout after the sneakers were delisted. *)
Lemma hidden_item_throws_witness :
  returns (Example.pay 300%N Example.second_cart) Scene.delisted = false
  /\ checkingOut (page (after (Example.pay 300%N Example.second_cart)
                              Scene.delisted)) = true.
Proof.
  assert (Hh : exists r,
             In r (rows_of_cart Example.alice Example.first_cart
                                (database Scene.delisted))
             /\ visible_item (ci_item_id r) (database Scene.delisted) = None).
  { exists {| ci_id := 200%N; ci_cart_id := Example.first_cart;
              ci_item_id := Example.sneakers; ci_quantity := 1 |}.
    split; [left; reflexivity|reflexivity]. }
  destruct (@hidden_item_throws
              Scene.delisted Example.alice Example.first_cart
              (Example.ok 0%N) (Example.ok 300%N) (Example.ok 0%N)
              (Example.ok Example.second_cart) eq_refl eq_refl)
    as [Hiff Hthen].
  split.
  - apply Hiff. split; [reflexivity|exact Hh].
  - apply (Hthen eq_refl Hh).
Defined.

(** The sneakers go into the empty first cart, and are shown. *)
Lemma viewCart_after_addToCart_witness :
  toasts (after (ViewCart (Example.ok 0%N))
                (after (AddToCart Example.sneakers (Example.ok 0%N)
                                  (Example.ok 200%N)) Example.opened))
  = [toast_success "Added to cart!";
     toast_info "Cart Items: Classic Sneakers"].
Proof.
  apply (@viewCart_after_addToCart
           Example.opened Example.alice Example.first_cart Example.sneakers
           (Example.sample Example.sneakers "Classic Sneakers"
                           "Comfortable everyday sneakers" 7999)
           (Example.ok 0%N) (Example.ok 200%N) (Example.ok 0%N));
    try reflexivity.
  intros r [].
Defined.

(** The first checkout, then the history. *)
Lemma viewOrderHistory_after_checkout_witness :
  exists lines,
    toasts (after (ViewOrderHistory (Example.ok 0%N))
                  (after (Example.pay 300%N Example.second_cart)
                         Example.filled))
    = toasts (after (Example.pay 300%N Example.second_cart) Example.filled)
      ++ [toast_order_history lines]
    /\ map fst lines = [300%N].
Proof.
  apply (@viewOrderHistory_after_checkout
           Example.filled Example.alice Example.first_cart
           (Example.ok 0%N) (Example.ok 300%N) (Example.ok 0%N)
           (Example.ok Example.second_cart)
           (S754_finite false 8090998205547806 (-46))
           (with_orders
              [order_of (Example.ok 300%N) Example.alice Example.first_cart
                        (S754_finite false 8090998205547806 (-46))]
              (database Example.filled))
           (Example.ok 0%N)); evaluated.
Defined.

(** The order of the example session is submitted with the total
    114.97999999999999; the column holds 114.98, and the history shows
    that. *)
Lemma history_shows_column_total :
  Column.hundredths (S754_finite false 8090998205547806 (-46))
  = Some 11498%Z
  /\ toasts (after (ViewOrderHistory (Example.ok 0%N))
                   (after (Example.pay 300%N Example.second_cart)
                          Example.filled))
     = toasts (after (Example.pay 300%N Example.second_cart) Example.filled)
       ++ [toast_order_history
             [(300%N, S754_finite false 8090998205547807 (-46))]].
Proof. split; vm_compute; reflexivity. Qed.

(** An item id the shop does not have. *)
Lemma addToCart_unknown_item_witness :
  let w' := after (AddToCart 99%N (Example.ok 0%N) (Example.ok 200%N))
                  Example.opened in
  toasts w' = toasts Example.opened
              ++ [toast_error "Failed to add item to cart"]
  /\ database w' = database Example.opened.
Proof.
  apply (@addToCart_unknown_item
           Example.opened Example.alice Example.first_cart 99%N
           (Example.ok 0%N) (Example.ok 200%N)); try reflexivity.
  refine (conj _ (conj _ _)).
  - intros c [<-|[]]. reflexivity.
  - intros r [].
  - intros o [].
Defined.

(** The second and the third checkout of the example session. *)
Lemma later_checkouts_repeat_the_order_witness :
  let w2 := after (Example.pay 302%N 103%N)
                  (after Example.second_checkout Example.second_visit) in
  orders (database w2)
  = orders (database Example.second_visit)
    ++ [order_of (Example.ok 301%N) Example.alice Example.second_cart
                 (Number.of_decimal2 3499);
        order_of (Example.ok 302%N) Example.alice Example.second_cart
                 (Number.of_decimal2 3499)]
  /\ cartId (page w2) = Some Example.second_cart.
Proof.
  destruct (@later_checkouts_repeat_the_order
              Example.second_visit Example.alice Example.second_cart
              {| cart_id := Example.first_cart;
                 cart_user_id := Example.alice;
                 cart_status := "checked_out" |}
              (Example.ok 0%N) (Example.ok 301%N) (Example.ok 0%N)
              (Example.ok 102%N)
              (Example.ok 0%N) (Example.ok 302%N) (Example.ok 0%N)
              (Example.ok 103%N)
              (Number.of_decimal2 3499))
    as (_ & Ho & _ & _ & Hc); [evaluated ..|].
  split; [exact Ho|exact Hc].
Defined.

(** Bob signs up; a second Bob cannot. *)
Lemma signup_adds_user_and_profile_witness :
  match signup Example.by_email Example.shop_db with
  | Some d' => signup Scene.other_bob d' = None
  | None => False
  end.
Proof.
  destruct (signup Example.by_email Example.shop_db) as [d'|] eqn:E;
    [|discriminate E].
  apply (proj2 (proj2 (proj2 (proj2 (proj2 (proj2
           (@signup_adds_user_and_profile
              Example.by_email Example.shop_db d' E))))))).
  reflexivity.
Defined.

(** Bob's signup on the seeded shop. *)
Lemma profiles_stay_well_formed_witness :
  match signup Example.by_email Example.shop_db with
  | Some d' => profiles_ok d'
  | None => False
  end.
Proof.
  assert (Hok : profiles_ok Example.shop_db).
  { split; [reflexivity|]. split; [reflexivity|].
    intros p [<-|[]]. reflexivity. }
  destruct (signup Example.by_email Example.shop_db) as [d'|] eqn:E;
    [|discriminate E].
  apply (proj1 (@profiles_stay_well_formed Example.shop_db Hok)
               Example.by_email d' E).
Defined.

(** The first checkout, with the next cart not answered. *)
Lemma checkout_without_next_cart_witness :
  let w' := after (Checkout (Example.ok 0%N) (Example.ok 300%N)
                            (Example.ok 0%N) Example.down)
                  Example.filled in
  toasts w' = toasts Example.filled ++ [toast_success "Order successful!"]
  /\ In {| cart_id := Example.first_cart; cart_user_id := Example.alice;
           cart_status := "checked_out" |} (carts (database w'))
  /\ carts_of Example.alice "active" (database w') = []
  /\ cartId (page w') = Some Example.first_cart
  /\ owns_cart Example.alice Example.first_cart (database w') = true.
Proof.
  apply (@checkout_without_next_cart
           Example.filled Example.alice Example.first_cart
           (Example.ok 0%N) (Example.ok 300%N) (Example.ok 0%N) Example.down
           (S754_finite false 8090998205547806 (-46))); evaluated.
Defined.

(** The mount of the first visit. *)
Lemma mount_loads_commute_witness :
  let a := mount (Example.ok 0%N) (Example.ok 0%N)
                 (Example.ok Example.first_cart) Example.start in
  let b := after (LoadItems (Example.ok 0%N))
                 (after (LoadOrCreateCart (Example.ok 0%N)
                                          (Example.ok Example.first_cart))
                        Example.start) in
  database a = database b /\ page a = page b
  /\ Permutation (toasts a) (toasts b).
Proof.
  apply (@mount_loads_commute Example.start (Example.ok 0%N)
           (Example.ok 0%N) (Example.ok Example.first_cart) Example.alice).
  reflexivity.
Defined.

(** X19.  For a user without a checked-out cart, a checkout of their
    active cart [c] every call of which is accepted shows
    "Order successful!", adds the order row, sets [c] to [checked_out],
    and adds one active cart, which is then the user's only active cart
    and the current one. *)
Theorem first_checkout_opens_next_cart w u c k1 k2 k3 k4 total :
  user (page w) = Some u -> cartId (page w) = Some c ->
  carts_unique (database w) ->
  unique_by same_cart_id (carts (database w)) = true ->
  In {| cart_id := c; cart_user_id := u; cart_status := "active" |}
     (carts (database w)) ->
  carts_of u "checked_out" (database w) = [] ->
  refused k1 = false -> refused k2 = false ->
  refused k3 = false -> refused k4 = false ->
  select_cart_prices u c (database w) <> [] ->
  reduce_total (select_cart_prices u c (database w)) Number.zero
  = Some total ->
  insert_order u (order_of k2 u c total) (database w) <> None ->
  cart_exists (uuid_v4 k4) (database w) = false ->
  let w' := after (Checkout k1 k2 k3 k4) w in
  toasts w' = toasts w ++ [toast_success "Order successful!"]
  /\ orders (database w') = orders (database w) ++ [order_of k2 u c total]
  /\ carts (database w')
     = map (set_status u c "checked_out") (carts (database w))
       ++ [cart_of k4 u]
  /\ In {| cart_id := c; cart_user_id := u; cart_status := "checked_out" |}
        (carts (database w'))
  /\ carts_of u "active" (database w') = [cart_of k4 u]
  /\ cartId (page w') = Some (uuid_v4 k4).
Proof. apply first_checkout_rotates_cart. Qed.

(** The first checkout of the example session. *)
Lemma first_checkout_opens_next_cart_witness :
  let w' := after (Example.pay 300%N Example.second_cart) Example.filled in
  toasts w' = toasts Example.filled ++ [toast_success "Order successful!"]
  /\ orders (database w')
     = orders (database Example.filled)
       ++ [order_of (Example.ok 300%N) Example.alice Example.first_cart
                    (S754_finite false 8090998205547806 (-46))]
  /\ carts (database w')
     = map (set_status Example.alice Example.first_cart "checked_out")
           (carts (database Example.filled))
       ++ [cart_of (Example.ok Example.second_cart) Example.alice]
  /\ In {| cart_id := Example.first_cart; cart_user_id := Example.alice;
           cart_status := "checked_out" |} (carts (database w'))
  /\ carts_of Example.alice "active" (database w')
     = [cart_of (Example.ok Example.second_cart) Example.alice]
  /\ cartId (page w') = Some Example.second_cart.
Proof.
  apply (@first_checkout_opens_next_cart
           Example.filled Example.alice Example.first_cart
           (Example.ok 0%N) (Example.ok 300%N) (Example.ok 0%N)
           (Example.ok Example.second_cart)
           (S754_finite false 8090998205547806 (-46))); evaluated.
Defined.

(** * The rendered page *)

Section Rendered.
Local Open Scope Z_scope.

(** ** Binary digits and shifts *)

Lemma digits2_pos_bounds p :
  2 ^ (Zpos (digits2_pos p) - 1) <= Zpos p < 2 ^ Zpos (digits2_pos p).
Proof.
  induction p as [p IH|p IH|]; simpl digits2_pos.
  - rewrite Pos2Z.inj_succ.
    replace (Z.succ (Zpos (digits2_pos p)) - 1) with (Zpos (digits2_pos p))
      by lia.
    rewrite Z.pow_succ_r by lia.
    assert (H : 2 ^ Zpos (digits2_pos p)
                = 2 * 2 ^ (Zpos (digits2_pos p) - 1)).
    { rewrite <- Z.pow_succ_r by lia. f_equal. lia. }
    lia.
  - rewrite Pos2Z.inj_succ.
    replace (Z.succ (Zpos (digits2_pos p)) - 1) with (Zpos (digits2_pos p))
      by lia.
    rewrite Z.pow_succ_r by lia.
    assert (H : 2 ^ Zpos (digits2_pos p)
                = 2 * 2 ^ (Zpos (digits2_pos p) - 1)).
    { rewrite <- Z.pow_succ_r by lia. f_equal. lia. }
    lia.
  - simpl. lia.
Qed.



Lemma shr_1_m mrs : 0 <= shr_m mrs -> shr_m (shr_1 mrs) = shr_m mrs / 2.
Proof.
  destruct mrs as [m r s]. simpl. intro H.
  destruct m as [|[p|p|]|p]; cbn [shr_1 shr_m]; try reflexivity; try lia.
  - apply Z.div_unique with 1; lia.
  - apply Z.div_unique with 0; lia.
Qed.

Lemma shr_iter_m p mrs :
  0 <= shr_m mrs ->
  shr_m (iter_pos shr_1 p mrs) = shr_m mrs / 2 ^ Zpos p
  /\ 0 <= shr_m (iter_pos shr_1 p mrs).
Proof.
  revert mrs. induction p as [p IH|p IH|]; intros mrs H; simpl iter_pos.
  - assert (H1 : 0 <= shr_m (shr_1 mrs))
      by (rewrite shr_1_m by exact H; apply Z.div_pos; lia).
    destruct (IH _ H1) as [E2 H2]. destruct (IH _ H2) as [E3 H3].
    split; [|exact H3]. rewrite E3, E2, shr_1_m by exact H.
    rewrite !Z.div_div by lia. f_equal.
    rewrite Pos2Z.inj_xI, Z.pow_add_r, Z.pow_mul_r by lia.
    change (2 ^ 2) with 4. change (2 ^ 1) with 2.
    replace (4 ^ Zpos p) with (2 ^ Zpos p * 2 ^ Zpos p); [lia|].
    rewrite <- Z.pow_add_r by lia. replace (Zpos p + Zpos p) with (2 * Zpos p) by lia.
    now rewrite Z.pow_mul_r by lia.
  - destruct (IH _ H) as [E2 H2]. destruct (IH _ H2) as [E3 H3].
    split; [|exact H3]. rewrite E3, E2.
    rewrite !Z.div_div by lia. f_equal.
    rewrite Pos2Z.inj_xO. rewrite <- Z.pow_add_r by lia. f_equal. lia.
  - split; [now rewrite shr_1_m|].
    rewrite shr_1_m by exact H. apply Z.div_pos; lia.
Qed.

(** ** Rounding a quotient *)










Lemma Zdigits2_bounds m :
  0 < m -> 2 ^ (Zdigits2 m - 1) <= m < 2 ^ Zdigits2 m /\ 0 < Zdigits2 m.
Proof.
  destruct m as [|p|p]; try lia. intros _.
  split; [apply digits2_pos_bounds|simpl; lia].
Qed.





(** ** Prices and buttons *)










(** X21.  A handler that returns leaves the buttons as it found them when
    none was busy: the checkout button enabled and labelled [Checkout],
    every card's button enabled and labelled [Add to Cart]. *)
Theorem buttons_enabled_after_return a w :
  checkingOut (page w) = false -> addingToCart (page w) = None ->
  returns a w = true ->
  checkout_button (page (after a w)) = (false, "Checkout"%string)
  /\ forall i, add_button (page (after a w)) i
               = (false, "Add to Cart"%string).
Proof.
  intros Hc Ha.
  assert (G : returns a w = true ->
              checkingOut (page (after a w)) = false
              /\ addingToCart (page (after a w)) = None).
  { destruct a; handlers; run; auto. }
  intro Hr. destruct (G Hr) as [E1 E2].
  unfold checkout_button, add_button. now rewrite E1, E2.
Qed.


(** Adding the sneakers to the first cart. *)
Lemma buttons_enabled_after_return_witness :
  let a := AddToCart Example.sneakers (Example.ok 0%N) (Example.ok 200%N) in
  checkout_button (page (after a Example.opened))
  = (false, "Checkout"%string)
  /\ forall i, add_button (page (after a Example.opened)) i
               = (false, "Add to Cart"%string).
Proof.
  apply (@buttons_enabled_after_return
           (AddToCart Example.sneakers (Example.ok 0%N) (Example.ok 200%N))
           Example.opened); reflexivity.
Defined.

End Rendered.
